(** * Health-risk engine of the local prediction server

    A shallow embedding of [ml-model/local_server.py] (and of the copy of the
    same functions in [ml-model/local_server_realdata.py]): feature
    extraction [compute_features], the additive rule table
    [calculate_risk_score] and the response builder
    [_generate_prediction_response].

    Numbers.  Python numbers are modelled by exact rationals ([Q], compared
    with [==]); integers that the code keeps as [int] (list indices, lengths,
    the age) are [Z].  Rounding error of binary floating point is outside
    this model. *)

From Stdlib Require Import Ascii String QArith Qminmax Qround Qabs Lqa Sorted.
From stdpp Require Import base decidable list strings gmap sets.

Local Open Scope Q_scope.

(** ** Comparisons on rationals as booleans *)

Definition Qltb (x y : Q) : bool := (Qnum x * QDen y <? Qnum y * QDen x)%Z.
Definition Qgtb (x y : Q) : bool := Qltb y x.

Infix "<?" := Qltb : Q_scope.
Infix ">?" := Qgtb : Q_scope.

(** ** Exceptions

    A computation that may raise returns [Raise e]; [x <- c ;; k] runs [k]
    on the value of [c] and propagates what [c] raises. *)

Inductive exn := ZeroDivisionError | ValueError.

Inductive py (A : Type) :=
| Ok (a : A)
| Raise (e : exn).
Arguments Ok {A} a.
Arguments Raise {A} e.

Definition py_bind {A B} (c : py A) (k : A -> py B) : py B :=
  match c with
  | Ok a => k a
  | Raise e => Raise e
  end.

Notation "x <- c ;; k" := (py_bind c (fun x => k))
  (at level 100, c at next level, right associativity).

(** ** Python built-ins used by the server *)

(** [x / y]: raises on a zero divisor. *)
Definition py_div (x y : Q) : py Q :=
  if Qeq_bool y 0 then Raise ZeroDivisionError else Ok (x / y).

(** [sum(arr)]: left-to-right accumulation from 0. *)
Definition sum (arr : list Q) : Q := foldl Qplus 0 arr.

(** [sum] over a list of Python ints. *)
Definition sum_int (arr : list Z) : Z := foldl Z.add 0%Z arr.

(** [len(arr)] as a Python int. *)
Definition len {A} (arr : list A) : Z := Z.of_nat (length arr).

(** [len(set(keys))]: the number of distinct keys. *)
Definition len_set `{Countable K} (keys : list K) : Z :=
  Z.of_nat (size (list_to_set keys : gset K)).

(** [range(n)] and [range(start, stop)]. *)
Definition range (n : Z) : list Z := seqZ 0 n.
Definition range_from (start stop : Z) : list Z := seqZ start (stop - start).

(** [max(arr)] and [min(arr)]: the running maximum (minimum) from the first
    element on; [ValueError] on an empty list. *)
Definition py_max (arr : list Q) : py Q :=
  match arr with
  | [] => Raise ValueError
  | x :: rest => Ok (foldl Qmax x rest)
  end.

Definition py_min (arr : list Q) : py Q :=
  match arr with
  | [] => Raise ValueError
  | x :: rest => Ok (foldl Qmin x rest)
  end.

(** The truth value of a list: [if arr] holds when [arr] is not empty. *)
Definition truthy {A} (arr : list A) : bool :=
  match arr with
  | [] => false
  | _ :: _ => true
  end.

(** [round] to the nearest integer, ties to the even neighbour. *)
Definition round_half_even (x : Q) : Z :=
  let f := Qfloor x in
  match Qcompare (x - inject_Z f) (1 # 2) with
  | Lt => f
  | Gt => (f + 1)%Z
  | Eq => if Z.even f then f else (f + 1)%Z
  end.

(** [round(x, ndigits)]. *)
Definition py_round (x : Q) (ndigits : nat) : Q :=
  inject_Z (round_half_even (x * inject_Z (10 ^ Z.of_nat ndigits)))
  / inject_Z (10 ^ Z.of_nat ndigits).

(** [s.lower()] on the ASCII range: ["A".."Z"] go to ["a".."z"], every other
    byte is left alone.  (No character outside ASCII lower-cases to one of
    the letters of ["male"], so this is enough for the one use below.) *)
Definition lower_ascii (c : ascii) : ascii :=
  let n := nat_of_ascii c in
  if ((65 <=? n) && (n <=? 90))%nat then ascii_of_nat (n + 32) else c.

Fixpoint lower (s : string) : string :=
  match s with
  | EmptyString => EmptyString
  | String c rest => String (lower_ascii c) (lower rest)
  end.

(** [s[:n]]. *)
Definition prefix (n : nat) (s : string) : string := substring 0 n s.

(** [l.sort(key=key, reverse=True)]: Python's sort is stable, and with
    [reverse=True] elements with equal keys still keep their original
    order.  The result of a stable sort is determined by that, so a stable
    insertion sort models it. *)
Section Sort.
Context {A : Type} (key : A -> Q).

Fixpoint insert_reverse (a : A) (l : list A) : list A :=
  match l with
  | [] => [a]
  | b :: rest =>
      if key a <? key b then b :: insert_reverse a rest else a :: b :: rest
  end.

Fixpoint sort_reverse (l : list A) : list A :=
  match l with
  | [] => []
  | a :: rest => insert_reverse a (sort_reverse rest)
  end.
End Sort.

(** ** Data model *)

(** A [datetime]: the calendar date as its proleptic Gregorian ordinal
    ([date.toordinal()]) and the time of day in microseconds. *)
Record datetime := mk_datetime {
  dt_ordinal : Z;
  dt_micros : Z
}.

(** A calendar date, by its ordinal. *)
Definition date := Z.

(** [d.date()]. *)
Definition datetime_date (d : datetime) : date := dt_ordinal d.

(** [d + timedelta(days=i)]. *)
Definition add_days (d : datetime) (i : Z) : datetime :=
  mk_datetime (dt_ordinal d + i) (dt_micros d).

(** The [timestamp] of a record is a datetime object (it has a [date]
    attribute) or a string. *)
Inductive timestamp :=
| TsDatetime (d : datetime)
| TsString (s : string).

Record MetricRecord := mk_metric {
  m_timestamp : timestamp;
  metricType : string;
  value : Q;
  userId : string
}.

(** The profile dict; [None] is an absent key. *)
Record UserProfile := mk_profile {
  profile_age : option Z;
  profile_gender : option string
}.

Record FeatureVector := mk_features {
  heart_rate_mean : Q;
  heart_rate_std : Q;
  heart_rate_max : Q;
  heart_rate_min : Q;
  steps_mean : Q;
  steps_std : Q;
  steps_total : Q;
  sleep_hours_mean : Q;
  sleep_hours_std : Q;
  calories_mean : Q;
  calories_std : Q;
  age : Z;
  gender_encoded : Z;
  days_with_data : Z;
  trend_heart_rate : Q;
  trend_steps : Q;
  trend_sleep : Q
}.

(** ** Feature extraction: [compute_features] *)

Section FeatureExtractor.
(** [v ** 0.5], the one operation of the extractor that leaves the
    rationals; it is used by [std] only. *)
Variable pow_half : Q -> Q.

Definition mean (arr : list Q) : py Q :=
  if truthy arr then py_div (sum arr) (inject_Z (len arr)) else Ok 0.

Definition std (arr : list Q) : py Q :=
  if negb (truthy arr) then Ok 0
  else
    avg <- mean arr ;;
    variance <- py_div (sum ((fun x => (x - avg) ^ 2) <$> arr))
                       (inject_Z (len arr)) ;;
    Ok (pow_half variance).

(** Simple linear regression slope. *)
Definition compute_trend (values : list Q) : py Q :=
  if (len values <? 2)%Z then Ok 0
  else
    let n := len values in
    let x := range n in
    let sum_x := sum_int x in
    let sum_y := sum values in
    let sum_xy := sum ((fun p => inject_Z (fst p) * snd p) <$> zip x values) in
    let sum_x2 := sum_int ((fun xi => xi * xi)%Z <$> x) in
    let denominator := (n * sum_x2 - sum_x * sum_x)%Z in
    if (denominator =? 0)%Z then Ok 0
    else
      slope <- py_div (inject_Z n * sum_xy - inject_Z sum_x * sum_y)
                      (inject_Z denominator) ;;
      Ok slope.

(** The values of the records of one metric type, in their order. *)
Definition series (ty : string) (metrics : list MetricRecord) : list Q :=
  value <$> filter (fun m => metricType m = ty) metrics.

(** The key a record contributes to the set of days: the date of a
    datetime, the first ten characters of a string. *)
Definition day_key (m : MetricRecord) : date + string :=
  match m_timestamp m with
  | TsDatetime d => inl (datetime_date d)
  | TsString s => inr (prefix 10 s)
  end.

Definition unique_days (metrics : list MetricRecord) : Z :=
  len_set (day_key <$> metrics).

Definition compute_features (metrics : list MetricRecord)
    (user_profile : UserProfile) : py FeatureVector :=
  let heart_rate_data := series "heart_rate" metrics in
  let steps_data := series "steps" metrics in
  let sleep_data := series "sleep" metrics in
  let calories_data := series "calories" metrics in
  let unique_days := unique_days metrics in
  hr_mean <- mean heart_rate_data ;;
  hr_std <- std heart_rate_data ;;
  hr_max <- (if truthy heart_rate_data then py_max heart_rate_data else Ok 0) ;;
  hr_min <- (if truthy heart_rate_data then py_min heart_rate_data else Ok 0) ;;
  st_mean <- mean steps_data ;;
  st_std <- std steps_data ;;
  sl_mean <- mean sleep_data ;;
  sl_std <- std sleep_data ;;
  cal_mean <- mean calories_data ;;
  cal_std <- std calories_data ;;
  t_hr <- compute_trend heart_rate_data ;;
  t_st <- compute_trend steps_data ;;
  t_sl <- compute_trend sleep_data ;;
  Ok {| heart_rate_mean := hr_mean;
        heart_rate_std := hr_std;
        heart_rate_max := hr_max;
        heart_rate_min := hr_min;
        steps_mean := st_mean;
        steps_std := st_std;
        steps_total := sum steps_data;
        sleep_hours_mean := sl_mean;
        sleep_hours_std := sl_std;
        calories_mean := cal_mean;
        calories_std := cal_std;
        age := default 35%Z (profile_age user_profile);
        gender_encoded :=
          if String.eqb (lower (default "male"%string (profile_gender user_profile)))
                        "male"
          then 1%Z else 0%Z;
        days_with_data := unique_days;
        trend_heart_rate := t_hr;
        trend_steps := t_st;
        trend_sleep := t_sl |}.
End FeatureExtractor.

(** The copy of [compute_features] in [local_server_realdata.py] differs in
    one line: the key of a record is the first ten characters of
    [str(timestamp)]. *)
Section RealData.
(** [str(d)] of a datetime. *)
Variable datetime_str : datetime -> string.

Definition timestamp_str (t : timestamp) : string :=
  match t with
  | TsDatetime d => datetime_str d
  | TsString s => s
  end.

Definition day_key_realdata (m : MetricRecord) : string :=
  prefix 10 (timestamp_str (m_timestamp m)).

Definition unique_days_realdata (metrics : list MetricRecord) : Z :=
  len_set (day_key_realdata <$> metrics).
End RealData.

(** ** Scoring: [calculate_risk_score] *)

(** Rule-based risk calculation; returns a risk score between 0 and 1. *)
Definition calculate_risk_score (features : FeatureVector) : Q :=
  let risk := 0.0 in
  (* Heart rate risk *)
  let hr_mean := heart_rate_mean features in
  let risk :=
    if hr_mean >? 100 then risk + 0.30
    else if hr_mean >? 90 then risk + 0.25
    else if hr_mean >? 80 then risk + 0.15
    else if hr_mean <? 50 then risk + 0.20
    else if hr_mean <? 60 then risk + 0.10
    else risk in
  (* Steps risk *)
  let steps_mean := steps_mean features in
  let risk :=
    if steps_mean <? 3000 then risk + 0.30
    else if steps_mean <? 5000 then risk + 0.20
    else if steps_mean <? 7000 then risk + 0.10
    else risk in
  (* Sleep risk *)
  let sleep_mean := sleep_hours_mean features in
  let risk :=
    if sleep_mean <? 5 then risk + 0.20
    else if sleep_mean <? 6 then risk + 0.15
    else if sleep_mean <? 7 then risk + 0.10
    else if sleep_mean >? 10 then risk + 0.10
    else risk in
  (* Calories risk *)
  let cal_mean := calories_mean features in
  let risk :=
    if cal_mean >? 3000 then risk + 0.10
    else if cal_mean >? 2800 then risk + 0.05
    else if cal_mean <? 1500 then risk + 0.08
    else risk in
  (* Age risk *)
  let age := age features in
  let risk :=
    if (age >? 60)%Z then risk + 0.10
    else if (age >? 50)%Z then risk + 0.05
    else if (age <? 18)%Z then risk + 0.03
    else risk in
  (* Trend penalties *)
  let risk := if trend_heart_rate features >? 0.5 then risk + 0.05 else risk in
  let risk := if trend_steps features <? -50 then risk + 0.05 else risk in
  let risk := if trend_sleep features <? -0.1 then risk + 0.05 else risk in
  Qmax 0.0 (Qmin 1.0 risk).

(** ** The response: [_generate_prediction_response] *)

Record ContributingFactor := mk_factor {
  feature : string;
  impact : Q;
  status : string
}.

(** One day of the forecast.  [tp_date] is the calendar date that the
    response renders with [strftime('%Y-%m-%d')]. *)
Record TrendPoint := mk_point {
  tp_date : date;
  predicted_risk : Q;
  confidence_lower : Q;
  confidence_upper : Q
}.

Record Prediction := mk_prediction {
  risk_score : Q;
  risk_level : string;
  confidence : Q;
  contributing_factors : list ContributingFactor;
  recommendations : list string;
  predicted_trend : list TrendPoint
}.

Record Response := mk_response {
  success : bool;
  prediction : Prediction
}.

(** Generate the complete prediction response.  The forecast loop reads the
    clock with [datetime.now()] once per day of the forecast; [now] stands
    for all of these readings. *)
Definition _generate_prediction_response (now : datetime) (risk_score : Q)
    (features : FeatureVector) (user_id : string) : Response :=
  (* Determine risk level *)
  let risk_level :=
    if risk_score <? 0.3 then "low"%string
    else if risk_score <? 0.6 then "medium"%string
    else "high"%string in
  (* Analyze contributing factors *)
  let contributing_factors := [] in
  (* Heart rate factor *)
  let hr_mean := heart_rate_mean features in
  let hr_impact := Qabs (hr_mean - 70) / 70 in
  let hr_status :=
    if (hr_mean >? 80) || (hr_mean <? 60) then "warning"%string
    else "good"%string in
  let contributing_factors :=
    contributing_factors ++
    [ {| feature := "heart_rate"; impact := py_round hr_impact 2;
         status := hr_status |} ] in
  (* Steps factor *)
  let steps_mean := steps_mean features in
  let steps_impact := Qabs (steps_mean - 8000) / 8000 in
  let steps_status :=
    if steps_mean <? 5000 then "critical"%string
    else if steps_mean <? 7000 then "warning"%string
    else "good"%string in
  let contributing_factors :=
    contributing_factors ++
    [ {| feature := "steps"; impact := py_round steps_impact 2;
         status := steps_status |} ] in
  (* Sleep factor *)
  let sleep_mean := sleep_hours_mean features in
  let sleep_impact := Qabs (sleep_mean - 7.5) / 7.5 in
  let sleep_status :=
    if sleep_mean <? 6 then "critical"%string
    else if sleep_mean <? 7 then "warning"%string
    else "good"%string in
  let contributing_factors :=
    contributing_factors ++
    [ {| feature := "sleep"; impact := py_round sleep_impact 2;
         status := sleep_status |} ] in
  (* Calories factor *)
  let cal_mean := calories_mean features in
  let cal_impact := Qabs (cal_mean - 2200) / 2200 in
  let cal_status :=
    if cal_mean >? 2800 then "warning"%string else "good"%string in
  let contributing_factors :=
    contributing_factors ++
    [ {| feature := "calories"; impact := py_round cal_impact 2;
         status := cal_status |} ] in
  (* Sort by impact *)
  let contributing_factors := sort_reverse impact contributing_factors in
  (* Generate recommendations *)
  let recommendations := [] in
  let recommendations :=
    if hr_mean >? 80
    then recommendations ++
         ["Consider stress management techniques to lower resting heart rate"%string]
    else recommendations in
  let recommendations :=
    if steps_mean <? 7000
    then recommendations ++
         ["Increase daily physical activity - aim for at least 8000 steps per day"%string]
    else recommendations in
  let recommendations :=
    if sleep_mean <? 7
    then recommendations ++
         ["Improve sleep quality - aim for 7-8 hours per night"%string]
    else recommendations in
  let recommendations :=
    if cal_mean >? 2500
    then recommendations ++
         ["Monitor calorie intake and consider dietary adjustments"%string]
    else recommendations in
  let recommendations :=
    if negb (truthy recommendations)
    then recommendations ++
         ["Keep up the great work! Maintain your healthy lifestyle"%string]
    else recommendations in
  (* Generate 7-day trend forecast *)
  let predicted_trend :=
    (fun i : Z =>
       let trend_adjustment :=
         (trend_heart_rate features * 0.3
          + trend_steps features * -0.0001
          + trend_sleep features * -0.05) * inject_Z i in
       let predicted_risk :=
         Qmax 0 (Qmin 1 (risk_score + trend_adjustment * 0.01)) in
       {| tp_date := datetime_date (add_days now i);
          predicted_risk := py_round predicted_risk 3;
          confidence_lower := py_round (Qmax 0 (predicted_risk - 0.1)) 3;
          confidence_upper := py_round (Qmin 1 (predicted_risk + 0.1)) 3 |})
    <$> range_from 1 8 in
  {| success := true;
     prediction :=
       {| risk_score := py_round risk_score 3;
          risk_level := risk_level;
          confidence := 0.85;
          contributing_factors := contributing_factors;
          recommendations := recommendations;
          predicted_trend := predicted_trend |} |}.

(** [predict]: score the features, then build the response, as the request
    handler does. *)
Definition predict (now : datetime) (features : FeatureVector)
    (user_id : string) : Response :=
  let risk_score := calculate_risk_score features in
  _generate_prediction_response now risk_score features user_id.

(** ** The rule table of the specification

    The scoring rules as data: per metric an ordered list of bands
    (condition, contribution), most severe first; the first band whose
    condition holds gives the contribution of the metric, and a metric with
    no matching band contributes nothing. *)

Definition band (A : Type) : Type := (A -> bool) * Q.

Fixpoint first_match {A} (bands : list (band A)) (x : A) : Q :=
  match bands with
  | [] => 0
  | (cond, contribution) :: rest =>
      if cond x then contribution else first_match rest x
  end.

Definition heart_rate_bands : list (band Q) :=
  [ (fun x => x >? 100, 0.30); (fun x => x >? 90, 0.25);
    (fun x => x >? 80, 0.15);
    (fun x => x <? 50, 0.20); (fun x => x <? 60, 0.10) ].

Definition steps_bands : list (band Q) :=
  [ (fun x => x <? 3000, 0.30); (fun x => x <? 5000, 0.20);
    (fun x => x <? 7000, 0.10) ].

Definition sleep_bands : list (band Q) :=
  [ (fun x => x <? 5, 0.20); (fun x => x <? 6, 0.15);
    (fun x => x <? 7, 0.10);
    (fun x => x >? 10, 0.10) ].

Definition calories_bands : list (band Q) :=
  [ (fun x => x >? 3000, 0.10); (fun x => x >? 2800, 0.05);
    (fun x => x <? 1500, 0.08) ].

Definition age_bands : list (band Z) :=
  [ (fun x => (x >? 60)%Z, 0.10); (fun x => (x >? 50)%Z, 0.05);
    (fun x => (x <? 18)%Z, 0.03) ].

Definition trend_heart_rate_bands : list (band Q) := [ (fun x => x >? 0.5, 0.05) ].
Definition trend_steps_bands : list (band Q) := [ (fun x => x <? -50, 0.05) ].
Definition trend_sleep_bands : list (band Q) := [ (fun x => x <? -0.1, 0.05) ].

(** The sum of the contributions of the eight rule groups. *)
Definition rule_table_sum (f : FeatureVector) : Q :=
  first_match heart_rate_bands (heart_rate_mean f)
  + first_match steps_bands (steps_mean f)
  + first_match sleep_bands (sleep_hours_mean f)
  + first_match calories_bands (calories_mean f)
  + first_match age_bands (age f)
  + first_match trend_heart_rate_bands (trend_heart_rate f)
  + first_match trend_steps_bands (trend_steps f)
  + first_match trend_sleep_bands (trend_sleep f).

Definition clamp (lo hi x : Q) : Q := Qmax lo (Qmin hi x).

(** What [risk += contribution] does along one [if]/[elif] chain. *)
Fixpoint add_first_match {A} (bands : list (band A)) (x : A) (risk : Q) : Q :=
  match bands with
  | [] => risk
  | (cond, contribution) :: rest =>
      if cond x then risk + contribution else add_first_match rest x risk
  end.

(** The second end-to-end example of the specification. *)
Definition example_high : FeatureVector :=
  {| heart_rate_mean := 105; heart_rate_std := 0; heart_rate_max := 0;
     heart_rate_min := 0; steps_mean := 2000; steps_std := 0;
     steps_total := 0; sleep_hours_mean := 4; sleep_hours_std := 0;
     calories_mean := 3200; calories_std := 0; age := 65;
     gender_encoded := 1; days_with_data := 30;
     trend_heart_rate := 0.6; trend_steps := 0; trend_sleep := 0 |}.

(** ** The recommendation rules of the specification

    Four triggers in a fixed order, each with its message, and the fallback
    message. *)

Definition stress_message : string :=
  "Consider stress management techniques to lower resting heart rate".
Definition activity_message : string :=
  "Increase daily physical activity - aim for at least 8000 steps per day".
Definition sleep_message : string :=
  "Improve sleep quality - aim for 7-8 hours per night".
Definition diet_message : string :=
  "Monitor calorie intake and consider dietary adjustments".
Definition fallback_message : string :=
  "Keep up the great work! Maintain your healthy lifestyle".

Definition recommendation_rules : list ((FeatureVector -> bool) * string) :=
  [ (fun f => heart_rate_mean f >? 80, stress_message);
    (fun f => steps_mean f <? 7000, activity_message);
    (fun f => sleep_hours_mean f <? 7, sleep_message);
    (fun f => calories_mean f >? 2500, diet_message) ].

(** The messages of the rules that trigger, in the order of the rules. *)
Definition triggered_messages (f : FeatureVector) : list string :=
  snd <$> filter (fun r => fst r f = true) recommendation_rules.

(** Two feature vectors agree on the eight fields that the rules read. *)
Definition agree_on_inputs (f1 f2 : FeatureVector) : Prop :=
  heart_rate_mean f1 = heart_rate_mean f2
  /\ steps_mean f1 = steps_mean f2
  /\ sleep_hours_mean f1 = sleep_hours_mean f2
  /\ calories_mean f1 = calories_mean f2
  /\ age f1 = age f2
  /\ trend_heart_rate f1 = trend_heart_rate f2
  /\ trend_steps f1 = trend_steps f2
  /\ trend_sleep f1 = trend_sleep f2.

(** The first end-to-end example of the specification, and a vector that
    differs from it in every field that the rules do not read. *)
Definition example_low : FeatureVector :=
  {| heart_rate_mean := 68; heart_rate_std := 0; heart_rate_max := 0;
     heart_rate_min := 0; steps_mean := 8500; steps_std := 0;
     steps_total := 0; sleep_hours_mean := 7.5; sleep_hours_std := 0;
     calories_mean := 2200; calories_std := 0; age := 35;
     gender_encoded := 1; days_with_data := 30;
     trend_heart_rate := 0; trend_steps := 0; trend_sleep := 0 |}.

Definition example_low_other : FeatureVector :=
  {| heart_rate_mean := 68; heart_rate_std := 4.5; heart_rate_max := 190;
     heart_rate_min := 41; steps_mean := 8500; steps_std := 1200;
     steps_total := 255000; sleep_hours_mean := 7.5; sleep_hours_std := 1.5;
     calories_mean := 2200; calories_std := 310; age := 35;
     gender_encoded := 0; days_with_data := 3;
     trend_heart_rate := 0; trend_steps := 0; trend_sleep := 0 |}.

Definition example_now : datetime := mk_datetime 739558 43200000000.

(** ** Gender literals of the specification *)


(** The four metric types that the extractor knows. *)
Definition known_metric_types : list string :=
  ["heart_rate"; "steps"; "sleep"; "calories"]%string.

Definition example_unknown : MetricRecord :=
  mk_metric (TsDatetime example_now) "blood_pressure" 120 "u1".
Definition example_profile : UserProfile :=
  mk_profile (Some 41%Z) (Some "MALE"%string).

(** ** Least squares

    The data points of a sub-series are its values against their index
    0..n-1.  A slope [b] is a least-squares slope when, with some intercept
    [a], the line [a + b*index] has the least sum of squared residuals among
    all lines. *)









(** ** The factor table of the specification

    Per metric: its name, its impact [|mean - baseline| / baseline] rounded
    to two decimals, and its status. *)

#[global] Instance Qeq_decision (x y : Q) : Decision (x == y) := Qeq_dec x y.

Definition impact_of (mean baseline : Q) : Q :=
  py_round (Qabs (mean - baseline) / baseline) 2.

Definition heart_rate_status (mean : Q) : string :=
  if (mean >? 80) || (mean <? 60) then "warning" else "good".
Definition steps_status (mean : Q) : string :=
  if mean <? 5000 then "critical" else if mean <? 7000 then "warning" else "good".
Definition sleep_status (mean : Q) : string :=
  if mean <? 6 then "critical" else if mean <? 7 then "warning" else "good".
Definition calories_status (mean : Q) : string :=
  if mean >? 2800 then "warning" else "good".

Definition factor_table (f : FeatureVector) : list ContributingFactor :=
  [ mk_factor "heart_rate" (impact_of (heart_rate_mean f) 70)
      (heart_rate_status (heart_rate_mean f));
    mk_factor "steps" (impact_of (steps_mean f) 8000)
      (steps_status (steps_mean f));
    mk_factor "sleep" (impact_of (sleep_hours_mean f) 7.5)
      (sleep_status (sleep_hours_mean f));
    mk_factor "calories" (impact_of (calories_mean f) 2200)
      (calories_status (calories_mean f)) ].



(** ** The forecast of the specification *)

Definition trend_adjustment (f : FeatureVector) (i : Z) : Q :=
  (trend_heart_rate f * 0.3 + trend_steps f * -0.0001 + trend_sleep f * -0.05)
  * inject_Z i.

(** The point estimate for day [i], before rounding. *)
Definition forecast_risk (rs : Q) (f : FeatureVector) (i : Z) : Q :=
  clamp 0 1 (rs + trend_adjustment f i * 0.01).

(** A vector with a rising heart rate and falling steps and sleep. *)
Definition example_rising : FeatureVector :=
  {| heart_rate_mean := 85; heart_rate_std := 0; heart_rate_max := 0;
     heart_rate_min := 0; steps_mean := 6000; steps_std := 0;
     steps_total := 0; sleep_hours_mean := 6.5; sleep_hours_std := 0;
     calories_mean := 2300; calories_std := 0; age := 55;
     gender_encoded := 0; days_with_data := 30;
     trend_heart_rate := 1.5; trend_steps := -120; trend_sleep := -0.2 |}.

(** ** More vocabulary for the feature extractor *)

(** The value that [std] hands to [** 0.5]: the mean of the squared
    deviations from the mean. *)
Definition variance (arr : list Q) : Q :=
  sum ((fun x => (x - sum arr / inject_Z (len arr)) ^ 2) <$> arr)
  / inject_Z (len arr).

(** The records that belong to none of the four sub-series. *)
Definition unknown_records (metrics : list MetricRecord) : list MetricRecord :=
  filter (fun m => metricType m ∉ known_metric_types) metrics.


(** ** More vocabulary for the scoring *)

(** The readings for which no rule of the table fires. *)
Definition healthy_region (f : FeatureVector) : Prop :=
  60 <= heart_rate_mean f <= 80
  /\ 7000 <= steps_mean f
  /\ 7 <= sleep_hours_mean f <= 10
  /\ 1500 <= calories_mean f <= 2800
  /\ (18 <= age f <= 50)%Z
  /\ trend_heart_rate f <= 0.5
  /\ -50 <= trend_steps f
  /\ -0.1 <= trend_sleep f.

(** [g] is at least as bad as [f] in the one-sided inputs of the table:
    fewer steps, a heart rate rising faster, steps and sleep falling faster;
    the two-sided inputs are the same. *)
Definition no_better (f g : FeatureVector) : Prop :=
  heart_rate_mean f = heart_rate_mean g
  /\ sleep_hours_mean f = sleep_hours_mean g
  /\ calories_mean f = calories_mean g
  /\ age f = age g
  /\ steps_mean g <= steps_mean f
  /\ trend_heart_rate f <= trend_heart_rate g
  /\ trend_steps g <= trend_steps f
  /\ trend_sleep g <= trend_sleep f.

(** [example_rising] with fewer steps. *)
Definition example_fewer_steps : FeatureVector :=
  {| heart_rate_mean := 85; heart_rate_std := 0; heart_rate_max := 0;
     heart_rate_min := 0; steps_mean := 2500; steps_std := 0;
     steps_total := 0; sleep_hours_mean := 6.5; sleep_hours_std := 0;
     calories_mean := 2300; calories_std := 0; age := 55;
     gender_encoded := 0; days_with_data := 30;
     trend_heart_rate := 1.5; trend_steps := -120; trend_sleep := -0.2 |}.

(** ** More vocabulary for the response *)

(** The daily drift of the forecast: what one more day adds to the
    adjustment. *)
Definition trend_coefficient (f : FeatureVector) : Q :=
  trend_heart_rate f * 0.3 + trend_steps f * -0.0001 + trend_sleep f * -0.05.

(** The forecast entry of day [i]. *)
Definition forecast_point (now : datetime) (rs : Q) (f : FeatureVector) (i : Z)
    : TrendPoint :=
  {| tp_date := (datetime_date now + i)%Z;
     predicted_risk := py_round (forecast_risk rs f i) 3;
     confidence_lower := py_round (Qmax 0 (forecast_risk rs f i - 0.1)) 3;
     confidence_upper := py_round (Qmin 1 (forecast_risk rs f i + 0.1)) 3 |}.

(** ** The request handler of [local_server.py]

    The handler talks to three things that are not part of the program: the
    connection, the Firestore client and the random number generator.  The
    connection is modelled by the list of what the handler does to it, in
    order.  A call into the client or the parser is modelled by its
    outcome: the value it returns or the text of the exception it raises.
    The generator is modelled by the values that [random.random()] returns
    during the call, in order. *)

Inductive outcome (A : Type) :=
| Returned (a : A)
| Raised (text : string).
Arguments Returned {A} a.
Arguments Raised {A} text.

(** One day of [_handle_history]. *)
Record HistoryDay := mk_history_day {
  h_date : date;
  h_heart_rate : Q;
  h_steps : Z;
  h_sleep_hours : Q;
  h_calories : Z
}.

(** The response of [local_server_realdata.py]: the prediction and what it
    was computed from. *)
Record MetricsAnalyzed := mk_metrics_analyzed {
  heart_rate_avg : Q;
  steps_avg : Z;
  sleep_avg : Q;
  calories_avg : Z
}.

Record DebugInfo := mk_debug_info {
  data_source : string;
  metrics_analyzed : MetricsAnalyzed
}.

Record RealisticResponse := mk_realistic {
  rr_success : bool;
  rr_prediction : Prediction;
  debug_info : DebugInfo
}.

(** What [json.dumps] is applied to. *)
Inductive json_doc :=
| JsonFailure (error : string)
| JsonResponse (r : Response)
| JsonRealistic (r : RealisticResponse)
| JsonHistory (history : list HistoryDay)
| JsonMessage (message : string)
| JsonNull.

Inductive event :=
| SendResponse (code : Z)
| SendHeader (name value : string)
| EndHeaders
| SendError (code : Z)
| Write (doc : json_doc).

(** [json.dumps(response)] for a variable that holds a response or [None]. *)
Definition dumps (response : option Response) : json_doc :=
  match response with
  | Some r => JsonResponse r
  | None => JsonNull
  end.

(** [random.uniform(a, b)] is [a + (b-a) * random()]. *)
Definition uniform (a b u : Q) : Q := a + (b - a) * u.

(** [round(x)] with one argument: the nearest integer. *)
Definition py_round_int (x : Q) : Z := round_half_even x.

(** The Firestore client, as far as the handler uses it: the patient
    document of a user ([None] when it does not exist), and the records of a
    user since a point in time, each copied into a dict with the four keys
    [timestamp], [metricType], [value], [userId]. *)
Record Database := mk_database {
  get_patient : string -> outcome (option UserProfile);
  stream_metrics : string -> datetime -> outcome (list MetricRecord)
}.

Definition _set_cors_headers : list event :=
  [ SendResponse 200;
    SendHeader "Content-Type" "application/json";
    SendHeader "Access-Control-Allow-Origin" "*";
    SendHeader "Access-Control-Allow-Methods" "GET, POST, OPTIONS";
    SendHeader "Access-Control-Allow-Headers" "Content-Type";
    EndHeaders ].

Definition do_OPTIONS : list event := _set_cors_headers.

(** Fallback mock prediction.  It writes its response itself and has no
    [return]: the caller gets [None]. *)
Definition _generate_mock_prediction (rnd : nat -> Q) (now : datetime)
    (user_id : string) : list event * option Response :=
  let base_risk := uniform 0.2 0.7 (rnd 0%nat) in
  let response :=
    {| success := true;
       prediction :=
         {| risk_score := py_round base_risk 3;
            risk_level :=
              if base_risk <? 0.3 then "low"%string
              else if base_risk <? 0.6 then "medium"%string else "high"%string;
            confidence := 0.85;
            contributing_factors :=
              [ {| feature := "steps";
                   impact := py_round (uniform 0.3 0.5 (rnd 1%nat)) 2;
                   status := "warning" |};
                {| feature := "sleep";
                   impact := py_round (uniform 0.2 0.4 (rnd 2%nat)) 2;
                   status := "warning" |};
                {| feature := "heart_rate";
                   impact := py_round (uniform 0.1 0.3 (rnd 3%nat)) 2;
                   status := "good" |};
                {| feature := "calories";
                   impact := py_round (uniform 0.05 0.15 (rnd 4%nat)) 2;
                   status := "good" |} ];
            recommendations :=
              [ "Increase daily physical activity - aim for at least 8000 steps per day";
                "Improve sleep quality - aim for 7-8 hours per night";
                "Maintain consistent exercise routine" ]%string;
            predicted_trend :=
              (fun i : Z =>
                 {| tp_date := datetime_date (add_days now i);
                    predicted_risk :=
                      py_round (base_risk
                                + uniform (-0.05) 0.05 (rnd (Z.to_nat (i + 4)))) 3;
                    confidence_lower := py_round (base_risk - 0.1) 3;
                    confidence_upper := py_round (base_risk + 0.1) 3 |})
              <$> range_from 1 8 |} |} in
  ([Write (JsonResponse response)], None).

(** Health history: 30 days of mock data. *)
Definition _handle_history (rnd : nat -> Q) (now : datetime) : list event :=
  let history := [] in
  let base_date := add_days now (-30) in
  let history :=
    history ++
    ((fun i : Z =>
        let date := add_days base_date i in
        {| h_date := datetime_date date;
           h_heart_rate := py_round (uniform 60 85 (rnd (Z.to_nat (4 * i)))) 1;
           h_steps := py_round_int (uniform 4000 10000 (rnd (Z.to_nat (4 * i + 1))));
           h_sleep_hours := py_round (uniform 5.5 8.5 (rnd (Z.to_nat (4 * i + 2)))) 1;
           h_calories := py_round_int (uniform 1800 2600 (rnd (Z.to_nat (4 * i + 3)))) |})
     <$> range 30) in
  _set_cors_headers ++ [Write (JsonHistory history)].

Section Handler.
(** [v ** 0.5] of [std], as in the feature extractor. *)
Variable pow_half : Q -> Q.
(** The global [db]: the client, or [None] when the SDK did not start. *)
Variable db : option Database.

(** The body of the inner [try] of [_handle_predict]: fetch the profile and
    the records of the last 30 days. *)
Definition fetch (d : Database) (now : datetime) (user_id : string)
    : outcome (UserProfile * list MetricRecord) :=
  match get_patient d user_id with
  | Raised text => Raised text
  | Returned user_doc =>
      let user_profile :=
        match user_doc with
        | Some profile => profile
        | None => {| profile_age := Some 35%Z; profile_gender := Some "male"%string |}
        end in
      let thirty_days_ago := add_days now (-30) in
      match stream_metrics d user_id thirty_days_ago with
      | Raised text => Raised text
      | Returned metrics => Returned (user_profile, metrics)
      end
  end.

(** Generate the prediction for a request.  [request] is the outcome of
    reading the body and parsing it up to [data.get('userId')]: [None] is an
    absent [userId]. *)
Definition _handle_predict (rnd : nat -> Q) (now : datetime)
    (request : outcome (option string)) : list event :=
  _set_cors_headers ++
  match request with
  | Raised text => [Write (JsonFailure text)]
  | Returned user_id =>
      match user_id with
      | None | Some EmptyString => [Write (JsonFailure "userId is required")]
      | Some user_id =>
          let '(written, response) :=
            match db with
            | Some d =>
                match fetch d now user_id with
                | Returned (user_profile, metrics) =>
                    if (len metrics <? 10)%Z
                    then _generate_mock_prediction rnd now user_id
                    else
                      match compute_features pow_half metrics user_profile with
                      | Ok features =>
                          let risk_score := calculate_risk_score features in
                          ([], Some (_generate_prediction_response now risk_score
                                       features user_id))
                      | Raise _ => _generate_mock_prediction rnd now user_id
                      end
                | Raised _ => _generate_mock_prediction rnd now user_id
                end
            | None => _generate_mock_prediction rnd now user_id
            end in
          written ++ [Write (dumps response)]
      end
  end.

(** The client is there, the profile and the records of the user could be
    fetched, and there are at least ten records. *)
Definition enough_data (now : datetime) (user_id : string)
    (user_profile : UserProfile) (metrics : list MetricRecord) : Prop :=
  exists d : Database,
    db = Some d
    /\ fetch d now user_id = Returned (user_profile, metrics)
    /\ (10 <= len metrics)%Z.

Definition do_POST (path : string) (rnd : nat -> Q) (now : datetime)
    (request : outcome (option string)) : list event :=
  if String.eqb path "/predictHealthRisk" then _handle_predict rnd now request
  else if String.eqb path "/getHealthHistory" then _handle_history rnd now
  else [SendError 404].
End Handler.


Definition example_rnd : nat -> Q := fun _ => 0.5.

(** ** The request handler of [local_server_realdata.py]

    This server asks no database: it seeds the random generator from the
    user id and draws the features.  [Generator] holds what the calls of one
    prediction return after [random.seed(seed)]: the values of [random()] in
    order, the value of [randint(25, 55)] and the value of [choice([0, 1])]. *)

Record Generator := mk_generator {
  random : nat -> Q;
  randint_25_55 : Z;
  choice_0_1 : Z
}.

(** What the library promises about these values. *)
Definition well_behaved (g : Generator) : Prop :=
  (forall k : nat, 0 <= random g k < 1)
  /\ (25 <= randint_25_55 g <= 55)%Z
  /\ (choice_0_1 g = 0%Z \/ choice_0_1 g = 1%Z).

(** The [features] dict of [_generate_realistic_prediction]. *)
Definition realistic_features (g : Generator) : FeatureVector :=
  let base_hr := uniform 65 85 (random g 0%nat) in
  let base_steps := uniform 4000 9000 (random g 1%nat) in
  let base_sleep := uniform 5.5 8 (random g 2%nat) in
  let base_calories := uniform 1900 2600 (random g 3%nat) in
  {| heart_rate_mean := base_hr;
     heart_rate_std := uniform 5 15 (random g 4%nat);
     heart_rate_max := base_hr + uniform 15 30 (random g 5%nat);
     heart_rate_min := base_hr - uniform 10 20 (random g 6%nat);
     steps_mean := base_steps;
     steps_std := uniform 1000 2500 (random g 7%nat);
     steps_total := base_steps * 30;
     sleep_hours_mean := base_sleep;
     sleep_hours_std := uniform 0.5 1.5 (random g 8%nat);
     calories_mean := base_calories;
     calories_std := uniform 200 400 (random g 9%nat);
     age := randint_25_55 g;
     gender_encoded := choice_0_1 g;
     days_with_data := 30;
     trend_heart_rate := uniform (-0.5) 0.5 (random g 10%nat);
     trend_steps := uniform (-100) 100 (random g 11%nat);
     trend_sleep := uniform (-0.2) 0.2 (random g 12%nat) |}.

Section RealDataHandler.
(** The generator seeded with the first eight hex digits of the MD5 digest
    of the user id. *)
Variable seeded : string -> Generator.

(** Generate a prediction from drawn features with the rule-based scoring. *)
Definition _generate_realistic_prediction (now : datetime) (user_id : string)
    : RealisticResponse :=
  let features := realistic_features (seeded user_id) in
  (* Calculate risk score using real algorithm *)
  let risk_score := calculate_risk_score features in
  (* Determine risk level *)
  let risk_level :=
    if risk_score <? 0.3 then "low"%string
    else if risk_score <? 0.6 then "medium"%string
    else "high"%string in
  (* Analyze contributing factors *)
  let contributing_factors := [] in
  let hr_impact := Qabs (heart_rate_mean features - 70) / 70 in
  let hr_status :=
    if (heart_rate_mean features >? 80) || (heart_rate_mean features <? 60)
    then "warning"%string else "good"%string in
  let contributing_factors :=
    contributing_factors ++
    [ {| feature := "heart_rate"; impact := py_round hr_impact 2;
         status := hr_status |} ] in
  let steps_impact := Qabs (steps_mean features - 8000) / 8000 in
  let steps_status :=
    if steps_mean features <? 5000 then "critical"%string
    else if steps_mean features <? 7000 then "warning"%string
    else "good"%string in
  let contributing_factors :=
    contributing_factors ++
    [ {| feature := "steps"; impact := py_round steps_impact 2;
         status := steps_status |} ] in
  let sleep_impact := Qabs (sleep_hours_mean features - 7.5) / 7.5 in
  let sleep_status :=
    if sleep_hours_mean features <? 6 then "critical"%string
    else if sleep_hours_mean features <? 7 then "warning"%string
    else "good"%string in
  let contributing_factors :=
    contributing_factors ++
    [ {| feature := "sleep"; impact := py_round sleep_impact 2;
         status := sleep_status |} ] in
  let cal_impact := Qabs (calories_mean features - 2200) / 2200 in
  let cal_status :=
    if calories_mean features >? 2800 then "warning"%string else "good"%string in
  let contributing_factors :=
    contributing_factors ++
    [ {| feature := "calories"; impact := py_round cal_impact 2;
         status := cal_status |} ] in
  (* Sort by impact *)
  let contributing_factors := sort_reverse impact contributing_factors in
  (* Generate recommendations based on actual metrics *)
  let recommendations := [] in
  let recommendations :=
    if heart_rate_mean features >? 80
    then recommendations ++
         ["Consider stress management techniques to lower resting heart rate"%string]
    else recommendations in
  let recommendations :=
    if steps_mean features <? 7000
    then recommendations ++
         ["Increase daily physical activity - aim for at least 8000 steps per day"%string]
    else recommendations in
  let recommendations :=
    if sleep_hours_mean features <? 7
    then recommendations ++
         ["Improve sleep quality - aim for 7-8 hours per night"%string]
    else recommendations in
  let recommendations :=
    if calories_mean features >? 2500
    then recommendations ++
         ["Monitor calorie intake and consider dietary adjustments"%string]
    else recommendations in
  let recommendations :=
    if negb (truthy recommendations)
    then recommendations ++
         ["Keep up the great work! Maintain your healthy lifestyle"%string]
    else recommendations in
  (* Generate 7-day trend forecast *)
  let predicted_trend :=
    (fun i : Z =>
       let trend_adjustment :=
         (trend_heart_rate features * 0.3
          + trend_steps features * -0.0001
          + trend_sleep features * -0.05) * inject_Z i in
       let predicted_risk :=
         Qmax 0 (Qmin 1 (risk_score + trend_adjustment * 0.01)) in
       {| tp_date := datetime_date (add_days now i);
          predicted_risk := py_round predicted_risk 3;
          confidence_lower := py_round (Qmax 0 (predicted_risk - 0.1)) 3;
          confidence_upper := py_round (Qmin 1 (predicted_risk + 0.1)) 3 |})
    <$> range_from 1 8 in
  {| rr_success := true;
     rr_prediction :=
       {| risk_score := py_round risk_score 3;
          risk_level := risk_level;
          confidence := 0.85;
          contributing_factors := contributing_factors;
          recommendations := recommendations;
          predicted_trend := predicted_trend |};
     debug_info :=
       {| data_source := "real_patient_metrics";
          metrics_analyzed :=
            {| heart_rate_avg := py_round (heart_rate_mean features) 1;
               steps_avg := py_round_int (steps_mean features);
               sleep_avg := py_round (sleep_hours_mean features) 1;
               calories_avg := py_round_int (calories_mean features) |} |} |}.

Definition _handle_predict_realdata (now : datetime)
    (request : outcome (option string)) : list event :=
  _set_cors_headers ++
  match request with
  | Raised text => [Write (JsonFailure text)]
  | Returned user_id =>
      match user_id with
      | None | Some EmptyString => [Write (JsonFailure "userId is required")]
      | Some user_id =>
          let response := _generate_realistic_prediction now user_id in
          [Write (JsonRealistic response)]
      end
  end.

(** Return success: the frontend already has this data. *)
Definition _handle_history_realdata : list event :=
  _set_cors_headers
  ++ [Write (JsonMessage "History data is displayed from frontend cache")].

Definition do_POST_realdata (path : string) (now : datetime)
    (request : outcome (option string)) : list event :=
  if String.eqb path "/predictHealthRisk" then _handle_predict_realdata now request
  else if String.eqb path "/getHealthHistory" then _handle_history_realdata
  else [SendError 404].
End RealDataHandler.

(** A generator that always returns a half, age 40, gender 1. *)
Definition example_generator : Generator :=
  {| random := fun _ => 0.5; randint_25_55 := 40; choice_0_1 := 1 |}.

(** * Properties *)

(** ** Comparisons *)

Lemma Qltb_lt (x y : Q) : (x <? y) = true <-> x < y.
Proof. unfold Qltb, Qlt. apply Z.ltb_lt. Qed.

Lemma Qltb_ge (x y : Q) : (x <? y) = false <-> y <= x.
Proof. unfold Qltb, Qle. apply Z.ltb_ge. Qed.

Lemma Qgtb_gt (x y : Q) : (x >? y) = true <-> y < x.
Proof. apply Qltb_lt. Qed.

Lemma Qgtb_le (x y : Q) : (x >? y) = false <-> x <= y.
Proof. apply Qltb_ge. Qed.

Lemma clamp_bounds (lo hi x : Q) : lo <= hi -> lo <= clamp lo hi x <= hi.
Proof.
  intros Hlh. unfold clamp. split.
  - apply Q.le_max_l.
  - apply Q.max_lub; [exact Hlh | apply Q.le_min_l].
Qed.

#[global] Instance clamp_compat : Proper (Qeq ==> Qeq ==> Qeq ==> Qeq) clamp.
Proof.
  intros lo lo' Hlo hi hi' Hhi x x' Hx. unfold clamp.
  apply Q.max_compat; [exact Hlo | apply Q.min_compat; assumption].
Qed.

(** ** The score is the clamped sum of the rule table *)

Lemma add_first_match_sum {A} (bands : list (band A)) (x : A) (r r' : Q) :
  r == r' -> add_first_match bands x r == r' + first_match bands x.
Proof.
  intros Hr. induction bands as [|[cond c] rest IH]; simpl.
  - rewrite Hr. ring.
  - destruct (cond x); [rewrite Hr; reflexivity | exact IH].
Qed.

Lemma calculate_risk_score_chain (f : FeatureVector) :
  calculate_risk_score f =
  Qmax 0.0 (Qmin 1.0
    (add_first_match trend_sleep_bands (trend_sleep f)
    (add_first_match trend_steps_bands (trend_steps f)
    (add_first_match trend_heart_rate_bands (trend_heart_rate f)
    (add_first_match age_bands (age f)
    (add_first_match calories_bands (calories_mean f)
    (add_first_match sleep_bands (sleep_hours_mean f)
    (add_first_match steps_bands (steps_mean f)
    (add_first_match heart_rate_bands (heart_rate_mean f) 0.0))))))))).
Proof. reflexivity. Qed.

(** C1.  For every feature vector the score is the sum, over the eight rule
    groups, of the contribution of the first matching band of each group,
    clamped to [0,1]; on the example of the specification the contributions
    are 0.30, 0.30, 0.20, 0.10, 0.10 and 0.05, their sum is 1.05 and the
    score is 1.0. *)
Theorem calculate_risk_score_rule_table :
  (forall f : FeatureVector,
      calculate_risk_score f == clamp 0 1 (rule_table_sum f)
      /\ 0 <= calculate_risk_score f <= 1)
  /\ first_match heart_rate_bands (heart_rate_mean example_high) == 0.30
  /\ first_match steps_bands (steps_mean example_high) == 0.30
  /\ first_match sleep_bands (sleep_hours_mean example_high) == 0.20
  /\ first_match calories_bands (calories_mean example_high) == 0.10
  /\ first_match age_bands (age example_high) == 0.10
  /\ first_match trend_heart_rate_bands (trend_heart_rate example_high) == 0.05
  /\ first_match trend_steps_bands (trend_steps example_high) == 0
  /\ first_match trend_sleep_bands (trend_sleep example_high) == 0
  /\ rule_table_sum example_high == 1.05
  /\ calculate_risk_score example_high == 1.0.
Proof.
  assert (Heq : forall f, calculate_risk_score f == clamp 0 1 (rule_table_sum f)).
  { intros f. rewrite calculate_risk_score_chain. unfold clamp, rule_table_sum.
    apply Q.max_compat; [reflexivity |].
    apply Q.min_compat; [reflexivity |].
    do 7 apply add_first_match_sum.
    transitivity (0 + first_match heart_rate_bands (heart_rate_mean f)).
    - apply add_first_match_sum. reflexivity.
    - ring. }
  split.
  - intros f. split; [apply Heq |].
    rewrite Heq. apply clamp_bounds. discriminate.
  - repeat split; reflexivity.
Qed.

(** ** Risk level *)

(** C2.  For a score [s] in [0,1] the level is low below 0.3, medium from
    0.3 up to but excluding 0.6, and high from 0.6 on; 0.2999 is low, 0.3
    is medium, 0.5999 is medium and 0.6 is high. *)
Theorem risk_level_bands (now : datetime) (s : Q) (f : FeatureVector)
    (uid : string) :
  0 <= s <= 1 ->
  let level s := risk_level (prediction (_generate_prediction_response now s f uid)) in
  (s < 0.3 -> level s = "low"%string)
  /\ (0.3 <= s -> s < 0.6 -> level s = "medium"%string)
  /\ (0.6 <= s -> level s = "high"%string)
  /\ level 0.2999 = "low"%string
  /\ level 0.3 = "medium"%string
  /\ level 0.5999 = "medium"%string
  /\ level 0.6 = "high"%string.
Proof.
  intros _ level. subst level. cbn [_generate_prediction_response prediction risk_level].
  repeat split; try reflexivity.
  - intros H. apply Qltb_lt in H. rewrite H. reflexivity.
  - intros H1 H2. apply Qltb_ge in H1. apply Qltb_lt in H2.
    rewrite H1, H2. reflexivity.
  - intros H. assert (H' : 0.3 <= s) by lra.
    apply Qltb_ge in H, H'. rewrite H, H'. reflexivity.
Qed.

Lemma risk_level_bands_witness :
  0 <= 0.45 <= 1
  /\ risk_level (prediction
       (_generate_prediction_response example_now 0.45 example_low "u1"))
     = "medium"%string.
Proof.
  split; [split; discriminate |].
  apply (risk_level_bands example_now 0.45 example_low "u1");
    [split |..]; discriminate.
Defined.

(** ** Recommendations *)

Lemma triggered_messages_eq (f : FeatureVector) :
  triggered_messages f =
    (if heart_rate_mean f >? 80 then [stress_message] else [])
    ++ (if steps_mean f <? 7000 then [activity_message] else [])
    ++ (if sleep_hours_mean f <? 7 then [sleep_message] else [])
    ++ (if calories_mean f >? 2500 then [diet_message] else []).
Proof.
  unfold triggered_messages, recommendation_rules.
  rewrite !filter_cons, filter_nil. cbn [fst snd].
  destruct (heart_rate_mean f >? 80), (steps_mean f <? 7000),
    (sleep_hours_mean f <? 7), (calories_mean f >? 2500);
    repeat case_decide; try congruence; reflexivity.
Qed.

(** C6.  The recommendations are the messages of the triggers
    heart_rate_mean > 80, steps_mean < 7000, sleep_hours_mean < 7,
    calories_mean > 2500 that hold, in that order and each at most once, or
    the fallback message alone when there are none; the list is never empty,
    and it is the fallback alone exactly when no trigger holds. *)
Theorem recommendations_rules (now : datetime) (rs : Q) (f : FeatureVector)
    (uid : string) :
  let recs := recommendations (prediction (_generate_prediction_response now rs f uid)) in
  recs = (if truthy (triggered_messages f) then triggered_messages f
          else [fallback_message])
  /\ triggered_messages f =
       (if heart_rate_mean f >? 80 then [stress_message] else [])
       ++ (if steps_mean f <? 7000 then [activity_message] else [])
       ++ (if sleep_hours_mean f <? 7 then [sleep_message] else [])
       ++ (if calories_mean f >? 2500 then [diet_message] else [])
  /\ recs <> []
  /\ NoDup recs
  /\ (recs = [fallback_message]
      <-> ~ 80 < heart_rate_mean f /\ ~ steps_mean f < 7000
          /\ ~ sleep_hours_mean f < 7 /\ ~ 2500 < calories_mean f).
Proof.
  intros recs. subst recs.
  cbn [_generate_prediction_response prediction recommendations].
  rewrite triggered_messages_eq.
  destruct (heart_rate_mean f >? 80) eqn:E1;
    [apply Qgtb_gt in E1 | apply Qgtb_le in E1];
  (destruct (steps_mean f <? 7000) eqn:E2;
    [apply Qltb_lt in E2 | apply Qltb_ge in E2]);
  (destruct (sleep_hours_mean f <? 7) eqn:E3;
    [apply Qltb_lt in E3 | apply Qltb_ge in E3]);
  (destruct (calories_mean f >? 2500) eqn:E4;
    [apply Qgtb_gt in E4 | apply Qgtb_le in E4]);
  cbn;
  (split; [reflexivity |]); (split; [reflexivity |]);
  (split; [discriminate |]);
  (split; [apply (bool_decide_unpack _); vm_compute; exact I |]);
  (split;
   [ intros Heq; try discriminate Heq;
     repeat split; apply Qle_not_lt; assumption
   | intros (H1 & H2 & H3 & H4); try reflexivity; tauto ]).
Qed.

(** ** The fields that the prediction reads *)

(** C10.  Two feature vectors that agree on heart_rate_mean, steps_mean,
    sleep_hours_mean, calories_mean, age, trend_heart_rate, trend_steps and
    trend_sleep get the same response for the same "now" and score alike;
    the nine other fields have no influence. *)
Theorem prediction_reads_eight_fields (now : datetime)
    (f1 f2 : FeatureVector) (uid1 uid2 : string) :
  agree_on_inputs f1 f2 ->
  calculate_risk_score f1 = calculate_risk_score f2
  /\ predict now f1 uid1 = predict now f2 uid2.
Proof.
  intros H. destruct f1, f2. unfold agree_on_inputs in H. cbn in H.
  destruct H as (-> & -> & -> & -> & -> & -> & -> & ->).
  split; reflexivity.
Qed.

Lemma prediction_reads_eight_fields_witness :
  agree_on_inputs example_low example_low_other
  /\ example_low <> example_low_other
  /\ predict example_now example_low "u1"
     = predict example_now example_low_other "u2".
Proof.
  assert (H : agree_on_inputs example_low example_low_other).
  { repeat split. }
  split; [exact H |]. split; [discriminate |].
  exact (proj2 (prediction_reads_eight_fields example_now example_low
                  example_low_other "u1" "u2" H)).
Defined.

(** ** Feature extraction never raises *)

Lemma len_nonzero {A} (arr : list A) :
  truthy arr = true -> Qeq_bool (inject_Z (len arr)) 0 = false.
Proof.
  destruct arr as [|a rest]; [discriminate |]. intros _.
  destruct (Qeq_bool _ _) eqn:E; [| reflexivity].
  apply Qeq_bool_eq in E. unfold Qeq, len in E. cbn in E. lia.
Qed.

Lemma py_div_nonzero (x y : Q) : Qeq_bool y 0 = false -> py_div x y = Ok (x / y).
Proof. intros H. unfold py_div. rewrite H. reflexivity. Qed.

Lemma mean_total (arr : list Q) :
  exists v, mean arr = Ok v /\ (arr = [] -> v = 0).
Proof.
  unfold mean. destruct (truthy arr) eqn:E.
  - rewrite py_div_nonzero by (apply len_nonzero; exact E).
    eexists. split; [reflexivity |]. intros ->. discriminate E.
  - exists 0. split; [reflexivity | reflexivity].
Qed.

Lemma std_total (pow_half : Q -> Q) (arr : list Q) :
  exists v, std pow_half arr = Ok v /\ (arr = [] -> v = 0).
Proof.
  unfold std. destruct (truthy arr) eqn:E; cbn [negb].
  - destruct (mean_total arr) as (avg & -> & _). cbn [py_bind].
    rewrite py_div_nonzero by (apply len_nonzero; exact E). cbn [py_bind].
    eexists. split; [reflexivity |]. intros ->. discriminate E.
  - exists 0. split; reflexivity.
Qed.

Lemma guarded_max_total (arr : list Q) :
  exists v, (if truthy arr then py_max arr else Ok 0) = Ok v /\ (arr = [] -> v = 0).
Proof.
  destruct arr as [|x rest]; cbn; eexists; (split; [reflexivity |]);
    [reflexivity | discriminate].
Qed.

Lemma guarded_min_total (arr : list Q) :
  exists v, (if truthy arr then py_min arr else Ok 0) = Ok v /\ (arr = [] -> v = 0).
Proof.
  destruct arr as [|x rest]; cbn; eexists; (split; [reflexivity |]);
    [reflexivity | discriminate].
Qed.

Lemma inject_Z_nonzero (z : Z) : (z =? 0)%Z = false -> Qeq_bool (inject_Z z) 0 = false.
Proof.
  intros Hz. apply Z.eqb_neq in Hz.
  destruct (Qeq_bool _ _) eqn:E; [| reflexivity].
  apply Qeq_bool_eq in E. unfold Qeq in E. cbn in E. lia.
Qed.

Lemma compute_trend_total (values : list Q) :
  exists v, compute_trend values = Ok v /\ (values = [] -> v = 0).
Proof.
  unfold compute_trend. destruct (len values <? 2)%Z eqn:E.
  - exists 0. split; reflexivity.
  - cbv zeta. destruct (_ =? 0)%Z eqn:Ed.
    + exists 0. split; [reflexivity |]. intros ->. discriminate E.
    + rewrite py_div_nonzero by (apply inject_Z_nonzero; exact Ed).
      cbn [py_bind]. eexists. split; [reflexivity |].
      intros ->. discriminate E.
Qed.



(** ** The fields copied from the profile and the day count *)


(** ** Gender encoding *)










(** ** Records of an unknown metric type and the day count *)




Lemma len_set_fresh `{Countable K} (k : K) (l : list K) :
  k ∉ l -> len_set (k :: l) = (len_set l + 1)%Z.
Proof.
  intros Hfresh. unfold len_set. rewrite list_to_set_cons.
  rewrite size_union by (rewrite disjoint_singleton_l, elem_of_list_to_set; exact Hfresh).
  rewrite size_singleton. lia.
Qed.

Lemma len_set_seen `{Countable K} (k : K) (l : list K) :
  k ∈ l -> len_set (k :: l) = len_set l.
Proof.
  intros Hseen. unfold len_set. do 2 f_equal. apply set_eq. intros x.
  rewrite list_to_set_cons, elem_of_union, elem_of_singleton, !elem_of_list_to_set.
  split; [intros [-> | Hx]; assumption | auto].
Qed.



(** ** The trend *)























(** *** Least squares *)




Section Residuals.
Variable l : list (Z * Q).





End Residuals.










(** ** Sorting the factors *)

Section SortReverse.
Context {A : Type} (key : A -> Q).


Lemma insert_reverse_perm (a : A) (l : list A) : insert_reverse key a l ≡ₚ a :: l.
Proof.
  induction l as [|b rest IH]; cbn; [reflexivity |].
  destruct (key a <? key b); [| reflexivity].
  rewrite IH. apply Permutation_swap.
Qed.

Lemma sort_reverse_perm (l : list A) : sort_reverse key l ≡ₚ l.
Proof.
  induction l as [|a rest IH]; cbn; [reflexivity |].
  rewrite insert_reverse_perm, IH. reflexivity.
Qed.




End SortReverse.


(** ** Rounding *)

Lemma round_half_even_near (x : Q) :
  inject_Z (round_half_even x) - (1 # 2) <= x
  /\ x <= inject_Z (round_half_even x) + (1 # 2).
Proof.
  unfold round_half_even.
  pose proof (Qfloor_le x) as Hlo. pose proof (Qlt_floor x) as Hhi.
  rewrite inject_Z_plus in Hhi. change (inject_Z 1) with 1 in Hhi.
  destruct (Qcompare_spec (x - inject_Z (Qfloor x)) (1 # 2)) as [H | H | H].
  - destruct (Z.even (Qfloor x)); rewrite ?inject_Z_plus;
      change (inject_Z 1) with 1; lra.
  - lra.
  - rewrite inject_Z_plus. change (inject_Z 1) with 1. lra.
Qed.

#[global] Instance round_half_even_comp : Proper (Qeq ==> eq) round_half_even.
Proof.
  intros x y Hxy. unfold round_half_even.
  rewrite (Qfloor_comp x y Hxy).
  assert (H : x - inject_Z (Qfloor y) == y - inject_Z (Qfloor y))
    by (rewrite Hxy; reflexivity).
  rewrite (Qcompare_comp _ _ H (1 # 2) (1 # 2) (Qeq_refl _)). reflexivity.
Qed.

Lemma round_half_even_mono (x y : Q) :
  x <= y -> (round_half_even x <= round_half_even y)%Z.
Proof.
  intros Hxy.
  destruct (Z.le_gt_cases (round_half_even x) (round_half_even y)) as [H | H];
    [exact H |].
  destruct (round_half_even_near x) as [Hx _].
  destruct (round_half_even_near y) as [_ Hy].
  assert (H1 : (round_half_even y + 1 <= round_half_even x)%Z) by lia.
  rewrite Zle_Qle, inject_Z_plus in H1.
  change (inject_Z 1) with 1 in H1.
  assert (Heq : x == y) by lra.
  rewrite (round_half_even_comp x y Heq) in H. lia.
Qed.

Lemma round_half_even_Z (z : Z) : round_half_even (inject_Z z) = z.
Proof.
  unfold round_half_even. rewrite Qfloor_Z.
  assert (H : inject_Z z - inject_Z z == 0) by ring.
  rewrite (Qcompare_comp _ _ H (1 # 2) (1 # 2) (Qeq_refl _)). reflexivity.
Qed.



Lemma scale_pos (ndigits : nat) : 0 < inject_Z (10 ^ Z.of_nat ndigits).
Proof.
  assert (H : (0 < 10 ^ Z.of_nat ndigits)%Z) by (apply Z.pow_pos_nonneg; lia).
  unfold Qlt. cbn. lia.
Qed.

#[global] Instance py_round_comp : Proper (Qeq ==> eq ==> Qeq) py_round.
Proof.
  intros x y Hxy n ? <-. unfold py_round.
  assert (H : x * inject_Z (10 ^ Z.of_nat n) == y * inject_Z (10 ^ Z.of_nat n))
    by (rewrite Hxy; reflexivity).
  rewrite (round_half_even_comp _ _ H). reflexivity.
Qed.

Lemma py_round_mono (x y : Q) (ndigits : nat) :
  x <= y -> py_round x ndigits <= py_round y ndigits.
Proof.
  intros Hxy. unfold py_round. pose proof (scale_pos ndigits) as Hs.
  apply Qmult_le_compat_r; [| apply Qlt_le_weak, Qinv_lt_0_compat; exact Hs].
  rewrite <- Zle_Qle. apply round_half_even_mono.
  apply Qmult_le_compat_r; [exact Hxy | apply Qlt_le_weak; exact Hs].
Qed.

Lemma py_round_Z (z : Z) (ndigits : nat) : py_round (inject_Z z) ndigits == inject_Z z.
Proof.
  unfold py_round. pose proof (scale_pos ndigits) as Hs.
  rewrite <- inject_Z_mult, round_half_even_Z, inject_Z_mult.
  field. intros H0. rewrite H0 in Hs. discriminate Hs.
Qed.




(** ** The forecast *)







(** * Further properties of the feature extractor *)



(** The fields of the vector that [compute_features] returns. *)
Lemma compute_features_fields (pow_half : Q -> Q) (metrics : list MetricRecord)
    (user_profile : UserProfile) :
  exists f : FeatureVector,
    compute_features pow_half metrics user_profile = Ok f
    /\ mean (series "heart_rate" metrics) = Ok (heart_rate_mean f)
    /\ std pow_half (series "heart_rate" metrics) = Ok (heart_rate_std f)
    /\ (if truthy (series "heart_rate" metrics)
        then py_max (series "heart_rate" metrics) else Ok 0) = Ok (heart_rate_max f)
    /\ (if truthy (series "heart_rate" metrics)
        then py_min (series "heart_rate" metrics) else Ok 0) = Ok (heart_rate_min f)
    /\ mean (series "steps" metrics) = Ok (steps_mean f)
    /\ std pow_half (series "steps" metrics) = Ok (steps_std f)
    /\ steps_total f = sum (series "steps" metrics)
    /\ mean (series "sleep" metrics) = Ok (sleep_hours_mean f)
    /\ std pow_half (series "sleep" metrics) = Ok (sleep_hours_std f)
    /\ mean (series "calories" metrics) = Ok (calories_mean f)
    /\ std pow_half (series "calories" metrics) = Ok (calories_std f)
    /\ age f = default 35%Z (profile_age user_profile)
    /\ days_with_data f = unique_days metrics
    /\ compute_trend (series "heart_rate" metrics) = Ok (trend_heart_rate f)
    /\ compute_trend (series "steps" metrics) = Ok (trend_steps f)
    /\ compute_trend (series "sleep" metrics) = Ok (trend_sleep f).
Proof.
  unfold compute_features. cbv zeta.
  destruct (mean_total (series "heart_rate" metrics)) as (v1 & H1 & _).
  destruct (std_total pow_half (series "heart_rate" metrics)) as (v2 & H2 & _).
  destruct (guarded_max_total (series "heart_rate" metrics)) as (v3 & H3 & _).
  destruct (guarded_min_total (series "heart_rate" metrics)) as (v4 & H4 & _).
  destruct (mean_total (series "steps" metrics)) as (v5 & H5 & _).
  destruct (std_total pow_half (series "steps" metrics)) as (v6 & H6 & _).
  destruct (mean_total (series "sleep" metrics)) as (v7 & H7 & _).
  destruct (std_total pow_half (series "sleep" metrics)) as (v8 & H8 & _).
  destruct (mean_total (series "calories" metrics)) as (v9 & H9 & _).
  destruct (std_total pow_half (series "calories" metrics)) as (v10 & H10 & _).
  destruct (compute_trend_total (series "heart_rate" metrics)) as (v11 & H11 & _).
  destruct (compute_trend_total (series "steps" metrics)) as (v12 & H12 & _).
  destruct (compute_trend_total (series "sleep" metrics)) as (v13 & H13 & _).
  rewrite H1, H2, H3, H4, H5, H6, H7, H8, H9, H10, H11, H12, H13.
  cbn [py_bind]. eexists. split; [reflexivity |]. cbn. repeat split.
Qed.

(** ** Maximum, minimum and mean *)









(** ** Variance *)










(** ** Totals *)


(** ** The order of the records *)













(** ** Bounds on the day count *)

Lemma len_set_bounds `{Countable K} (l : list K) :
  (0 <= len_set l <= len l)%Z /\ (len_set l = 0%Z <-> l = []).
Proof.
  induction l as [|k l [IHb IHz]].
  - split; [vm_compute; split; discriminate |]. split; reflexivity.
  - assert (Hlen : len (k :: l) = (len l + 1)%Z) by (unfold len; cbn [length]; lia).
    destruct (decide (k ∈ l)) as [Hin | Hout].
    + rewrite (len_set_seen k l Hin), Hlen. split; [lia |].
      split; [| discriminate]. intros H0. apply IHz in H0. subst l.
      apply elem_of_nil in Hin. contradiction.
    + rewrite (len_set_fresh k l Hout), Hlen. split; [lia |].
      split; [lia | discriminate].
Qed.

(** X5.  days_with_data is never more than the number of records, and it is
    0 only when there is no record at all -- in both servers. *)
Theorem days_with_data_bounds (datetime_str : datetime -> string)
    (metrics : list MetricRecord) :
  (0 <= unique_days metrics <= len metrics)%Z
  /\ (unique_days metrics = 0%Z <-> metrics = [])
  /\ (0 <= unique_days_realdata datetime_str metrics <= len metrics)%Z
  /\ (unique_days_realdata datetime_str metrics = 0%Z <-> metrics = []).
Proof.
  unfold unique_days, unique_days_realdata.
  destruct (len_set_bounds (day_key <$> metrics)) as [B1 Z1].
  destruct (len_set_bounds (day_key_realdata datetime_str <$> metrics)) as [B2 Z2].
  unfold len in *. rewrite length_fmap in B1. rewrite length_fmap in B2.
  split; [exact B1 |]. split; [| split; [exact B2 |]].
  - rewrite Z1. split; [apply fmap_nil_inv | intros ->; reflexivity].
  - rewrite Z2. split; [apply fmap_nil_inv | intros ->; reflexivity].
Qed.

(** ** The trend under a change of unit *)


Lemma len_fmap {A B} (g : A -> B) (l : list A) : len (g <$> l) = len l.
Proof. unfold len. rewrite length_fmap. reflexivity. Qed.




(** ** The trend of a series read backwards *)







(** ** The sub-series split the record list *)

Lemma len_series (ty : string) (metrics : list MetricRecord) :
  len (series ty metrics) = len (filter (fun m => metricType m = ty) metrics).
Proof. unfold series. apply len_fmap. Qed.

Lemma known_metric_type_cases (ty : string) :
  ty ∈ known_metric_types
  <-> ty = "heart_rate"%string \/ ty = "steps"%string \/ ty = "sleep"%string
      \/ ty = "calories"%string.
Proof.
  unfold known_metric_types. rewrite !elem_of_cons, elem_of_nil. tauto.
Qed.

(** X8.  Every record is in exactly one of five groups: the four
    sub-series and the records of unknown type; the lengths add up to the
    number of records, and each sub-series keeps the order of the records. *)
Theorem series_partition (metrics : list MetricRecord) :
  (len (series "heart_rate" metrics) + len (series "steps" metrics)
   + len (series "sleep" metrics) + len (series "calories" metrics)
   + len (unknown_records metrics) = len metrics)%Z
  /\ (forall ty, series ty metrics `sublist_of` (value <$> metrics)).
Proof.
  split.
  - rewrite !len_series. unfold unknown_records, len.
    induction metrics as [|m metrics IH]; [reflexivity |].
    rewrite !filter_cons. cbn [length] in *.
    destruct (decide (metricType m ∉ known_metric_types)) as [Hun | Hkn].
    + repeat case_decide;
        try (exfalso; apply Hun, known_metric_type_cases; tauto).
      cbn [length]. lia.
    + apply dec_stable in Hkn. apply known_metric_type_cases in Hkn.
      destruct Hkn as [H | [H | [H | H]]]; rewrite H;
        repeat case_decide; try congruence; cbn [length]; lia.
  - intros ty. unfold series. apply fmap_sublist. apply sublist_filter.
Qed.

(** * Further properties of the scoring *)

(** ** The bands of each metric *)

Ltac band_cases :=
  repeat match goal with
    | |- context [?x >? ?y] =>
        let E := fresh "E" in
        destruct (x >? y) eqn:E; [apply Qgtb_gt in E | apply Qgtb_le in E]
    | |- context [?x <? ?y] =>
        let E := fresh "E" in
        destruct (x <? y) eqn:E; [apply Qltb_lt in E | apply Qltb_ge in E]
    end.

Lemma heart_rate_band (x : Q) :
  let c := first_match heart_rate_bands x in
  (c = 0.30 /\ 100 < x) \/ (c = 0.25 /\ 90 < x <= 100) \/ (c = 0.15 /\ 80 < x <= 90)
  \/ (c = 0.20 /\ x < 50) \/ (c = 0.10 /\ 50 <= x < 60) \/ (c = 0 /\ 60 <= x <= 80).
Proof. cbn. band_cases; intuition (try lra). Qed.

Lemma steps_band (x : Q) :
  let c := first_match steps_bands x in
  (c = 0.30 /\ x < 3000) \/ (c = 0.20 /\ 3000 <= x < 5000)
  \/ (c = 0.10 /\ 5000 <= x < 7000) \/ (c = 0 /\ 7000 <= x).
Proof. cbn. band_cases; intuition (try lra). Qed.

Lemma sleep_band (x : Q) :
  let c := first_match sleep_bands x in
  (c = 0.20 /\ x < 5) \/ (c = 0.15 /\ 5 <= x < 6) \/ (c = 0.10 /\ 6 <= x < 7)
  \/ (c = 0.10 /\ 10 < x) \/ (c = 0 /\ 7 <= x <= 10).
Proof. cbn. band_cases; intuition (try lra). Qed.

Lemma calories_band (x : Q) :
  let c := first_match calories_bands x in
  (c = 0.10 /\ 3000 < x) \/ (c = 0.05 /\ 2800 < x <= 3000) \/ (c = 0.08 /\ x < 1500)
  \/ (c = 0 /\ 1500 <= x <= 2800).
Proof. cbn. band_cases; intuition (try lra). Qed.

Lemma age_band (x : Z) :
  let c := first_match age_bands x in
  (c = 0.10 /\ (60 < x)%Z) \/ (c = 0.05 /\ (50 < x <= 60)%Z)
  \/ (c = 0.03 /\ (x < 18)%Z) \/ (c = 0 /\ (18 <= x <= 50)%Z).
Proof.
  cbn. destruct (Z.gtb_spec x 60); [left; split; [reflexivity | lia] |].
  destruct (Z.gtb_spec x 50); [right; left; split; [reflexivity | lia] |].
  destruct (Z.ltb_spec x 18); [right; right; left | right; right; right];
    (split; [reflexivity | lia]).
Qed.

Lemma trend_heart_rate_band (x : Q) :
  let c := first_match trend_heart_rate_bands x in
  (c = 0.05 /\ 0.5 < x) \/ (c = 0 /\ x <= 0.5).
Proof. cbn. band_cases; intuition (try lra). Qed.

Lemma trend_steps_band (x : Q) :
  let c := first_match trend_steps_bands x in
  (c = 0.05 /\ x < -50) \/ (c = 0 /\ -50 <= x).
Proof. cbn. band_cases; intuition (try lra). Qed.

Lemma trend_sleep_band (x : Q) :
  let c := first_match trend_sleep_bands x in
  (c = 0.05 /\ x < -0.1) \/ (c = 0 /\ -0.1 <= x).
Proof. cbn. band_cases; intuition (try lra). Qed.

(** Each group: its range, when it is 0, and that it is a whole number of
    hundredths. *)
Ltac band_summary H :=
  cbv zeta in H;
  repeat match type of H with
    | _ \/ _ => destruct H as [H | H]
    end;
  destruct H as [-> H].

Lemma score_as_min (f : FeatureVector) :
  calculate_risk_score f == clamp 0 1 (rule_table_sum f).
Proof.
  rewrite calculate_risk_score_chain. unfold clamp, rule_table_sum.
  apply Q.max_compat; [reflexivity |].
  apply Q.min_compat; [reflexivity |].
  do 7 apply add_first_match_sum.
  transitivity (0 + first_match heart_rate_bands (heart_rate_mean f)).
  - apply add_first_match_sum. reflexivity.
  - ring.
Qed.

Lemma first_match_range {A} (M : Q) (bands : list (band A)) (x : A) :
  0 <= M ->
  Forall (fun b => 0 <= snd b <= M) bands ->
  0 <= first_match bands x <= M.
Proof.
  intros HM Hall. induction Hall as [|[cond c] rest Hc _ IH]; cbn.
  - lra.
  - destruct (cond x); [exact Hc | exact IH].
Qed.

Lemma first_match_zero {A} (bands : list (band A)) (x : A) :
  Forall (fun b => 0 < snd b) bands ->
  first_match bands x == 0 <-> Forall (fun b => fst b x = false) bands.
Proof.
  intros Hall. induction Hall as [|[cond c] rest Hc _ IH]; cbn.
  - split; [constructor | reflexivity].
  - cbn in Hc. destruct (cond x) eqn:E.
    + split; [intros H0; lra |].
      intros H. apply Forall_cons in H. destruct H as [H _]. cbn in H. congruence.
    + rewrite IH. split; [intros H; constructor; assumption |].
      intros H. apply Forall_cons in H. tauto.
Qed.

Lemma first_match_hundredths {A} (bands : list (band A)) (x : A) :
  Forall (fun b => exists k : Z, (0 <= k)%Z /\ snd b == inject_Z k / 100) bands ->
  exists k : Z, (0 <= k)%Z /\ first_match bands x == inject_Z k / 100.
Proof.
  intros Hall. induction Hall as [|[cond c] rest Hc _ IH]; cbn.
  - exists 0%Z. split; [lia | reflexivity].
  - destruct (cond x); [exact Hc | exact IH].
Qed.

Ltac hundredths_table :=
  repeat (apply Forall_cons; split;
          [first [ exists 30%Z; split; [lia | reflexivity]
                 | exists 25%Z; split; [lia | reflexivity]
                 | exists 20%Z; split; [lia | reflexivity]
                 | exists 15%Z; split; [lia | reflexivity]
                 | exists 10%Z; split; [lia | reflexivity]
                 | exists 8%Z; split; [lia | reflexivity]
                 | exists 5%Z; split; [lia | reflexivity]
                 | exists 3%Z; split; [lia | reflexivity] ] |]);
  apply Forall_nil_2.

Ltac range_table :=
  repeat (apply Forall_cons; split; [cbn; split; discriminate |]);
  apply Forall_nil_2.

Ltac positive_table :=
  repeat (apply Forall_cons; split; [reflexivity |]); apply Forall_nil_2.

Lemma rule_table_sum_range (f : FeatureVector) : 0 <= rule_table_sum f <= 1.15.
Proof.
  unfold rule_table_sum.
  pose proof (first_match_range 0.30 heart_rate_bands (heart_rate_mean f)
                ltac:(discriminate) ltac:(range_table)).
  pose proof (first_match_range 0.30 steps_bands (steps_mean f)
                ltac:(discriminate) ltac:(range_table)).
  pose proof (first_match_range 0.20 sleep_bands (sleep_hours_mean f)
                ltac:(discriminate) ltac:(range_table)).
  pose proof (first_match_range 0.10 calories_bands (calories_mean f)
                ltac:(discriminate) ltac:(range_table)).
  pose proof (first_match_range 0.10 age_bands (age f)
                ltac:(discriminate) ltac:(range_table)).
  pose proof (first_match_range 0.05 trend_heart_rate_bands (trend_heart_rate f)
                ltac:(discriminate) ltac:(range_table)).
  pose proof (first_match_range 0.05 trend_steps_bands (trend_steps f)
                ltac:(discriminate) ltac:(range_table)).
  pose proof (first_match_range 0.05 trend_sleep_bands (trend_sleep f)
                ltac:(discriminate) ltac:(range_table)).
  lra.
Qed.

Lemma clamp_nonneg (x : Q) : 0 <= x -> clamp 0 1 x == Qmin 1 x.
Proof.
  intros Hx. unfold clamp. apply Q.max_r. apply Q.min_glb; [discriminate | exact Hx].
Qed.

Lemma healthy_region_bands (f : FeatureVector) :
  healthy_region f
  <-> Forall (fun b => fst b (heart_rate_mean f) = false) heart_rate_bands
      /\ Forall (fun b => fst b (steps_mean f) = false) steps_bands
      /\ Forall (fun b => fst b (sleep_hours_mean f) = false) sleep_bands
      /\ Forall (fun b => fst b (calories_mean f) = false) calories_bands
      /\ Forall (fun b => fst b (age f) = false) age_bands
      /\ Forall (fun b => fst b (trend_heart_rate f) = false) trend_heart_rate_bands
      /\ Forall (fun b => fst b (trend_steps f) = false) trend_steps_bands
      /\ Forall (fun b => fst b (trend_sleep f) = false) trend_sleep_bands.
Proof.
  unfold healthy_region, heart_rate_bands, steps_bands, sleep_bands, calories_bands,
    age_bands, trend_heart_rate_bands, trend_steps_bands, trend_sleep_bands.
  rewrite !Forall_cons, !Forall_nil. cbn [fst].
  rewrite !Qgtb_le, !Qltb_ge, !Z.gtb_ltb, !Z.ltb_ge.
  split; intros H; repeat split; try tauto; try lra; lia.
Qed.

(** X9.  The score is 0 exactly in the region where no rule fires: heart
    rate in [60,80], steps at least 7000, sleep in [7,10], calories in
    [1500,2800], age in [18,50], and no trend beyond its threshold.  The sum
    of the table is never negative and never above 1.15, so only the upper
    clamp can act. *)
Theorem score_zero_region (f : FeatureVector) :
  0 <= rule_table_sum f <= 1.15
  /\ calculate_risk_score f == Qmin 1 (rule_table_sum f)
  /\ (calculate_risk_score f == 0 <-> healthy_region f).
Proof.
  pose proof (rule_table_sum_range f) as Hrange.
  assert (Hmin : calculate_risk_score f == Qmin 1 (rule_table_sum f)).
  { rewrite score_as_min. apply clamp_nonneg. lra. }
  split; [exact Hrange |]. split; [exact Hmin |].
  rewrite Hmin, healthy_region_bands.
  rewrite <- (first_match_zero heart_rate_bands) by positive_table.
  rewrite <- (first_match_zero steps_bands) by positive_table.
  rewrite <- (first_match_zero sleep_bands) by positive_table.
  rewrite <- (first_match_zero calories_bands) by positive_table.
  rewrite <- (first_match_zero age_bands) by positive_table.
  rewrite <- (first_match_zero trend_heart_rate_bands) by positive_table.
  rewrite <- (first_match_zero trend_steps_bands) by positive_table.
  rewrite <- (first_match_zero trend_sleep_bands) by positive_table.
  unfold rule_table_sum in *.
  pose proof (first_match_range 0.30 heart_rate_bands (heart_rate_mean f)
                ltac:(discriminate) ltac:(range_table)).
  pose proof (first_match_range 0.30 steps_bands (steps_mean f)
                ltac:(discriminate) ltac:(range_table)).
  pose proof (first_match_range 0.20 sleep_bands (sleep_hours_mean f)
                ltac:(discriminate) ltac:(range_table)).
  pose proof (first_match_range 0.10 calories_bands (calories_mean f)
                ltac:(discriminate) ltac:(range_table)).
  pose proof (first_match_range 0.10 age_bands (age f)
                ltac:(discriminate) ltac:(range_table)).
  pose proof (first_match_range 0.05 trend_heart_rate_bands (trend_heart_rate f)
                ltac:(discriminate) ltac:(range_table)).
  pose proof (first_match_range 0.05 trend_steps_bands (trend_steps f)
                ltac:(discriminate) ltac:(range_table)).
  pose proof (first_match_range 0.05 trend_sleep_bands (trend_sleep f)
                ltac:(discriminate) ltac:(range_table)).
  destruct (Q.min_spec 1 (first_match heart_rate_bands (heart_rate_mean f)
    + first_match steps_bands (steps_mean f)
    + first_match sleep_bands (sleep_hours_mean f)
    + first_match calories_bands (calories_mean f)
    + first_match age_bands (age f)
    + first_match trend_heart_rate_bands (trend_heart_rate f)
    + first_match trend_steps_bands (trend_steps f)
    + first_match trend_sleep_bands (trend_sleep f))) as [[Hlt Heq] | [Hle Heq]];
    rewrite Heq; split; intros H'; repeat split; lra.
Qed.

(** ** Hundredths *)

Lemma score_hundredths (f : FeatureVector) :
  exists k : Z, (0 <= k <= 100)%Z /\ calculate_risk_score f == inject_Z k / 100.
Proof.
  destruct (first_match_hundredths heart_rate_bands (heart_rate_mean f)
              ltac:(hundredths_table)) as (k1 & P1 & H1).
  destruct (first_match_hundredths steps_bands (steps_mean f)
              ltac:(hundredths_table)) as (k2 & P2 & H2).
  destruct (first_match_hundredths sleep_bands (sleep_hours_mean f)
              ltac:(hundredths_table)) as (k3 & P3 & H3).
  destruct (first_match_hundredths calories_bands (calories_mean f)
              ltac:(hundredths_table)) as (k4 & P4 & H4).
  destruct (first_match_hundredths age_bands (age f)
              ltac:(hundredths_table)) as (k5 & P5 & H5).
  destruct (first_match_hundredths trend_heart_rate_bands (trend_heart_rate f)
              ltac:(hundredths_table)) as (k6 & P6 & H6).
  destruct (first_match_hundredths trend_steps_bands (trend_steps f)
              ltac:(hundredths_table)) as (k7 & P7 & H7).
  destruct (first_match_hundredths trend_sleep_bands (trend_sleep f)
              ltac:(hundredths_table)) as (k8 & P8 & H8).
  assert (Hsum : rule_table_sum f
                 == inject_Z (k1 + k2 + k3 + k4 + k5 + k6 + k7 + k8) / 100).
  { unfold rule_table_sum. rewrite H1, H2, H3, H4, H5, H6, H7, H8.
    rewrite !inject_Z_plus. field. }
  set (k := (k1 + k2 + k3 + k4 + k5 + k6 + k7 + k8)%Z) in *.
  assert (Hk : (0 <= k)%Z) by (subst k; lia).
  exists (Z.min 100 k). split; [lia |].
  rewrite score_as_min, clamp_nonneg, Hsum by (rewrite Hsum; apply Qle_shift_div_l;
    [reflexivity | rewrite Zle_Qle in Hk; change (inject_Z 0) with 0 in Hk; lra]).
  destruct (Z.le_gt_cases k 100) as [Hle | Hgt].
  - rewrite Z.min_r by exact Hle. apply Q.min_r.
    apply Qle_shift_div_r; [reflexivity |]. rewrite Zle_Qle in Hle.
    change (inject_Z 100) with 100 in Hle. lra.
  - rewrite Z.min_l by lia. rewrite Q.min_l; [reflexivity |].
    apply Qle_shift_div_l; [reflexivity |].
    assert (Hle : (100 <= k)%Z) by lia. rewrite Zle_Qle in Hle.
    change (inject_Z 100) with 100 in Hle. lra.
Qed.

Lemma py_round_hundredths (k : Z) : py_round (inject_Z k / 100) 3 == inject_Z k / 100.
Proof.
  unfold py_round. change (inject_Z (10 ^ Z.of_nat 3)) with 1000.
  assert (H : inject_Z k / 100 * 1000 == inject_Z (10 * k)).
  { rewrite inject_Z_mult. change (inject_Z 10) with 10. field. }
  rewrite (round_half_even_comp _ _ H), round_half_even_Z, inject_Z_mult.
  change (inject_Z 10) with 10. field.
Qed.



(** ** One-sided inputs *)

Ltac two_bands Hx Hy :=
  cbv zeta in Hx, Hy;
  repeat match type of Hx with _ \/ _ => destruct Hx as [Hx | Hx] end;
  destruct Hx as [-> Hx];
  repeat match type of Hy with _ \/ _ => destruct Hy as [Hy | Hy] end;
  destruct Hy as [-> Hy];
  lra.

Lemma steps_band_antitone (x y : Q) :
  y <= x -> first_match steps_bands x <= first_match steps_bands y.
Proof.
  intros Hxy. pose proof (steps_band x) as Hx. pose proof (steps_band y) as Hy.
  two_bands Hx Hy.
Qed.

Lemma trend_heart_rate_band_monotone (x y : Q) :
  x <= y ->
  first_match trend_heart_rate_bands x <= first_match trend_heart_rate_bands y.
Proof.
  intros Hxy. pose proof (trend_heart_rate_band x) as Hx.
  pose proof (trend_heart_rate_band y) as Hy. two_bands Hx Hy.
Qed.

Lemma trend_steps_band_antitone (x y : Q) :
  y <= x -> first_match trend_steps_bands x <= first_match trend_steps_bands y.
Proof.
  intros Hxy. pose proof (trend_steps_band x) as Hx.
  pose proof (trend_steps_band y) as Hy. two_bands Hx Hy.
Qed.

Lemma trend_sleep_band_antitone (x y : Q) :
  y <= x -> first_match trend_sleep_bands x <= first_match trend_sleep_bands y.
Proof.
  intros Hxy. pose proof (trend_sleep_band x) as Hx.
  pose proof (trend_sleep_band y) as Hy. two_bands Hx Hy.
Qed.

Lemma clamp_monotone (x y : Q) : x <= y -> clamp 0 1 x <= clamp 0 1 y.
Proof.
  intros Hxy. unfold clamp. apply Q.max_le_compat_l, Q.min_le_compat_l. exact Hxy.
Qed.

(** X11.  With heart rate, sleep, calories and age unchanged, fewer steps, a
    faster rising heart rate, or faster falling steps or sleep never lower
    the score. *)
Theorem score_monotone (f g : FeatureVector) :
  no_better f g -> calculate_risk_score f <= calculate_risk_score g.
Proof.
  intros (Hhr & Hsl & Hcal & Hage & Hst & Hthr & Htst & Htsl).
  rewrite !score_as_min. apply clamp_monotone. unfold rule_table_sum.
  rewrite Hhr, Hsl, Hcal, Hage.
  pose proof (steps_band_antitone _ _ Hst).
  pose proof (trend_heart_rate_band_monotone _ _ Hthr).
  pose proof (trend_steps_band_antitone _ _ Htst).
  pose proof (trend_sleep_band_antitone _ _ Htsl).
  lra.
Qed.

Lemma score_monotone_witness :
  no_better example_rising example_fewer_steps
  /\ calculate_risk_score example_rising <= calculate_risk_score example_fewer_steps.
Proof.
  assert (H : no_better example_rising example_fewer_steps).
  { unfold no_better. cbn. repeat split; try reflexivity; discriminate. }
  split; [exact H | exact (score_monotone _ _ H)].
Defined.

(** ** Metrics without records *)

Lemma mean_of_none (arr : list Q) (m : Q) : arr = [] -> mean arr = Ok m -> m = 0.
Proof. intros -> H. injection H as <-. reflexivity. Qed.

Lemma trend_of_none (arr : list Q) (t : Q) :
  arr = [] -> compute_trend arr = Ok t -> t = 0.
Proof. intros -> H. injection H as <-. reflexivity. Qed.

(** X12.  A metric without records is scored like its most alarming low
    reading: no heart-rate records add 0.20, no step records 0.30, no sleep
    records 0.20 and no calorie records 0.08.  With no record of any of the
    four types the score is 0.78 plus the contribution of the age, and the
    level is high. *)
Theorem absent_data_score (pow_half : Q -> Q) (now : datetime)
    (metrics : list MetricRecord) (user_profile : UserProfile) (uid : string) :
  exists f : FeatureVector,
    compute_features pow_half metrics user_profile = Ok f
    /\ (series "heart_rate" metrics = [] ->
        first_match heart_rate_bands (heart_rate_mean f) = 0.20)
    /\ (series "steps" metrics = [] ->
        first_match steps_bands (steps_mean f) = 0.30)
    /\ (series "sleep" metrics = [] ->
        first_match sleep_bands (sleep_hours_mean f) = 0.20)
    /\ (series "calories" metrics = [] ->
        first_match calories_bands (calories_mean f) = 0.08)
    /\ (series "heart_rate" metrics = [] -> series "steps" metrics = [] ->
        series "sleep" metrics = [] -> series "calories" metrics = [] ->
        calculate_risk_score f == 0.78 + first_match age_bands (age f)
        /\ risk_level (prediction (predict now f uid)) = "high"%string).
Proof.
  destruct (compute_features_fields pow_half metrics user_profile)
    as (f & Hf & M1 & _ & _ & _ & M2 & _ & _ & M3 & _ & M4 & _ & _ & _ & T1 & T2 & T3).
  exists f. split; [exact Hf |].
  split; [intros E; rewrite (mean_of_none _ _ E M1); reflexivity |].
  split; [intros E; rewrite (mean_of_none _ _ E M2); reflexivity |].
  split; [intros E; rewrite (mean_of_none _ _ E M3); reflexivity |].
  split; [intros E; rewrite (mean_of_none _ _ E M4); reflexivity |].
  intros E1 E2 E3 E4.
  assert (Hsum : rule_table_sum f == 0.78 + first_match age_bands (age f)).
  { unfold rule_table_sum.
    rewrite (mean_of_none _ _ E1 M1), (mean_of_none _ _ E2 M2),
      (mean_of_none _ _ E3 M3), (mean_of_none _ _ E4 M4),
      (trend_of_none _ _ E1 T1), (trend_of_none _ _ E2 T2), (trend_of_none _ _ E3 T3).
    change (first_match heart_rate_bands 0) with 0.20.
    change (first_match steps_bands 0) with 0.30.
    change (first_match sleep_bands 0) with 0.20.
    change (first_match calories_bands 0) with 0.08.
    change (first_match trend_heart_rate_bands 0) with 0.
    change (first_match trend_steps_bands 0) with 0.
    change (first_match trend_sleep_bands 0) with 0. ring. }
  pose proof (first_match_range 0.10 age_bands (age f)
                ltac:(discriminate) ltac:(range_table)) as Hage.
  assert (Hscore : calculate_risk_score f == 0.78 + first_match age_bands (age f)).
  { rewrite score_as_min, clamp_nonneg by (rewrite Hsum; lra).
    rewrite Hsum. apply Q.min_r. lra. }
  split; [exact Hscore |].
  unfold predict. cbn [_generate_prediction_response prediction risk_level].
  assert (H3 : (calculate_risk_score f <? 0.3) = false) by (apply Qltb_ge; lra).
  assert (H6 : (calculate_risk_score f <? 0.6) = false) by (apply Qltb_ge; lra).
  rewrite H3, H6. reflexivity.
Qed.

Lemma absent_data_score_witness :
  exists f : FeatureVector,
    compute_features (fun v => v) [example_unknown] example_profile = Ok f
    /\ calculate_risk_score f == 0.78 + first_match age_bands (age f)
    /\ risk_level (prediction (predict example_now f "u1")) = "high"%string.
Proof.
  destruct (absent_data_score (fun v => v) example_now [example_unknown]
              example_profile "u1") as (f & Hf & _ & _ & _ & _ & H).
  exists f. split; [exact Hf |]. apply H; reflexivity.
Defined.

(** * Further properties of the response *)

(** ** Statuses and recommendations *)

Lemma factors_of_table (now : datetime) (rs : Q) (f : FeatureVector) (uid : string)
    (c : ContributingFactor) :
  c ∈ contributing_factors (prediction (_generate_prediction_response now rs f uid))
  <-> c ∈ factor_table f.
Proof.
  change (contributing_factors (prediction (_generate_prediction_response now rs f uid)))
    with (sort_reverse impact (factor_table f)).
  rewrite (sort_reverse_perm impact (factor_table f)). reflexivity.
Qed.

Lemma message_membership (now : datetime) (rs : Q) (f : FeatureVector) (uid : string) :
  let recs := recommendations (prediction (_generate_prediction_response now rs f uid)) in
  bool_decide (stress_message ∈ recs) = (heart_rate_mean f >? 80)
  /\ bool_decide (activity_message ∈ recs) = (steps_mean f <? 7000)
  /\ bool_decide (sleep_message ∈ recs) = (sleep_hours_mean f <? 7)
  /\ bool_decide (diet_message ∈ recs) = (calories_mean f >? 2500).
Proof.
  cbn [_generate_prediction_response prediction recommendations].
  destruct (heart_rate_mean f >? 80), (steps_mean f <? 7000),
    (sleep_hours_mean f <? 7), (calories_mean f >? 2500);
    vm_compute; repeat split; reflexivity.
Qed.

Lemma impact_nonneg (mean baseline : Q) : 0 < baseline -> 0 <= impact_of mean baseline.
Proof.
  intros Hb. unfold impact_of.
  pose proof (py_round_Z 0 2) as H0. change (inject_Z 0) with 0 in H0.
  rewrite <- H0. apply py_round_mono.
  apply Qle_shift_div_l; [exact Hb |]. pose proof (Qabs_nonneg (mean - baseline)). lra.
Qed.

(** X13.  Every factor has a status good, warning or critical and a
    non-negative impact; heart rate and calories are never critical.  The
    activity (sleep) recommendation is given exactly when the steps (sleep)
    factor is not good; a stress recommendation comes only with a
    heart-rate warning, and a calories warning always comes with the diet
    recommendation. *)
Theorem statuses_and_recommendations (now : datetime) (rs : Q)
    (f : FeatureVector) (uid : string) (c : ContributingFactor) :
  let p := prediction (_generate_prediction_response now rs f uid) in
  c ∈ contributing_factors p ->
  (status c = "good" \/ status c = "warning" \/ status c = "critical")%string
  /\ 0 <= impact c
  /\ (feature c = "steps"%string ->
      (status c <> "good"%string <-> activity_message ∈ recommendations p))
  /\ (feature c = "sleep"%string ->
      (status c <> "good"%string <-> sleep_message ∈ recommendations p))
  /\ (feature c = "heart_rate"%string ->
      status c <> "critical"%string
      /\ (stress_message ∈ recommendations p -> status c = "warning"%string))
  /\ (feature c = "calories"%string ->
      status c <> "critical"%string
      /\ (status c = "warning"%string -> diet_message ∈ recommendations p)).
Proof.
  intros p Hc. apply factors_of_table in Hc.
  destruct (message_membership now rs f uid) as (Mhr & Mst & Msl & Mcal).
  fold p in Mhr, Mst, Msl, Mcal.
  unfold factor_table in Hc.
  rewrite !elem_of_cons, elem_of_nil in Hc.
  destruct Hc as [-> | [-> | [-> | [-> | []]]]]; cbn [feature status impact].
  - (* heart rate *)
    split; [unfold heart_rate_status; destruct (_ || _); auto |].
    split; [apply impact_nonneg; reflexivity |].
    split; [discriminate |]. split; [discriminate |]. split; [| discriminate].
    intros _. unfold heart_rate_status. split; [destruct (_ || _); discriminate |].
    intros Hin. apply (bool_decide_pack _) in Hin. rewrite Mhr in Hin.
    apply Is_true_true in Hin. rewrite Hin. reflexivity.
  - (* steps *)
    split; [unfold steps_status; destruct (_ <? 5000), (_ <? 7000); auto |].
    split; [apply impact_nonneg; reflexivity |].
    split; [| split; [discriminate | split; discriminate]].
    intros _. rewrite <- (bool_decide_spec (activity_message ∈ recommendations p)), Mst.
    unfold steps_status.
    destruct (steps_mean f <? 5000) eqn:E5; [apply Qltb_lt in E5 | apply Qltb_ge in E5];
      (destruct (steps_mean f <? 7000) eqn:E7;
        [apply Qltb_lt in E7 | apply Qltb_ge in E7]);
      cbn; split; intros H; try exact I; try discriminate; try (exfalso; lra);
      try (exfalso; apply H; reflexivity); try contradiction.
  - (* sleep *)
    split; [unfold sleep_status; destruct (_ <? 6), (_ <? 7); auto |].
    split; [apply impact_nonneg; reflexivity |].
    split; [discriminate |]. split; [| split; discriminate].
    intros _. rewrite <- (bool_decide_spec (sleep_message ∈ recommendations p)), Msl.
    unfold sleep_status.
    destruct (sleep_hours_mean f <? 6) eqn:E6; [apply Qltb_lt in E6 | apply Qltb_ge in E6];
      (destruct (sleep_hours_mean f <? 7) eqn:E7;
        [apply Qltb_lt in E7 | apply Qltb_ge in E7]);
      cbn; split; intros H; try exact I; try discriminate; try (exfalso; lra);
      try (exfalso; apply H; reflexivity); try contradiction.
  - (* calories *)
    split; [unfold calories_status; destruct (_ >? 2800); auto |].
    split; [apply impact_nonneg; reflexivity |].
    split; [discriminate |]. split; [discriminate |]. split; [discriminate |].
    intros _. unfold calories_status. split; [destruct (_ >? 2800); discriminate |].
    rewrite <- (bool_decide_spec (diet_message ∈ recommendations p)), Mcal.
    destruct (calories_mean f >? 2800) eqn:E; [| discriminate].
    intros _. apply Qgtb_gt in E.
    assert (E' : (calories_mean f >? 2500) = true) by (apply Qgtb_gt; lra).
    rewrite E'. exact I.
Qed.

Lemma statuses_and_recommendations_witness :
  exists c : ContributingFactor,
    c ∈ contributing_factors
          (prediction (_generate_prediction_response example_now 0.45 example_rising "u1"))
    /\ feature c = "steps"%string
    /\ status c <> "good"%string
    /\ activity_message ∈
         recommendations
           (prediction (_generate_prediction_response example_now 0.45 example_rising "u1")).
Proof.
  exists (mk_factor "steps" (impact_of 6000 8000) "warning").
  assert (Hin : mk_factor "steps" (impact_of 6000 8000) "warning"
                ∈ contributing_factors
                    (prediction (_generate_prediction_response example_now 0.45
                                   example_rising "u1"))).
  { apply factors_of_table. apply list_elem_of_further, list_elem_of_here. }
  destruct (statuses_and_recommendations example_now 0.45 example_rising "u1" _ Hin)
    as (_ & _ & Hsteps & _).
  split; [exact Hin |]. split; [reflexivity |].
  assert (Hbad : status (mk_factor "steps" (impact_of 6000 8000) "warning")
                 <> "good"%string) by discriminate.
  split; [exact Hbad |]. apply (Hsteps eq_refl). exact Hbad.
Defined.

(** ** The forecast over the days *)

Lemma predicted_trend_points (now : datetime) (rs : Q) (f : FeatureVector)
    (uid : string) :
  predicted_trend (prediction (_generate_prediction_response now rs f uid))
  = forecast_point now rs f <$> [1; 2; 3; 4; 5; 6; 7]%Z.
Proof. reflexivity. Qed.

Lemma forecast_days (j : nat) (i : Z) :
  [1; 2; 3; 4; 5; 6; 7]%Z !! j = Some i -> i = (Z.of_nat j + 1)%Z.
Proof.
  destruct j as [|[|[|[|[|[|[|j]]]]]]]; cbn; intros H;
    try discriminate H; injection H as <-; reflexivity.
Qed.

Lemma forecast_risk_coefficient (rs : Q) (f : FeatureVector) (i : Z) :
  forecast_risk rs f i == clamp 0 1 (rs + trend_coefficient f * inject_Z i * 0.01).
Proof. reflexivity. Qed.

Lemma forecast_risk_rising (rs : Q) (f : FeatureVector) (i k : Z) :
  0 <= trend_coefficient f -> (i <= k)%Z -> forecast_risk rs f i <= forecast_risk rs f k.
Proof.
  intros Hc Hik. rewrite !forecast_risk_coefficient. apply clamp_monotone.
  rewrite Zle_Qle in Hik. nra.
Qed.

Lemma forecast_risk_falling (rs : Q) (f : FeatureVector) (i k : Z) :
  trend_coefficient f <= 0 -> (i <= k)%Z -> forecast_risk rs f k <= forecast_risk rs f i.
Proof.
  intros Hc Hik. rewrite !forecast_risk_coefficient. apply clamp_monotone.
  rewrite Zle_Qle in Hik. nra.
Qed.

Lemma forecast_point_order (now : datetime) (rs : Q) (f : FeatureVector) (i k : Z) :
  forecast_risk rs f i <= forecast_risk rs f k ->
  predicted_risk (forecast_point now rs f i) <= predicted_risk (forecast_point now rs f k)
  /\ confidence_lower (forecast_point now rs f i)
     <= confidence_lower (forecast_point now rs f k)
  /\ confidence_upper (forecast_point now rs f i)
     <= confidence_upper (forecast_point now rs f k).
Proof.
  intros Hle. cbn [forecast_point predicted_risk confidence_lower confidence_upper].
  split; [apply py_round_mono; exact Hle |].
  split; apply py_round_mono.
  - apply Q.max_le_compat_l. lra.
  - apply Q.min_le_compat_l. lra.
Qed.

(** X14.  The forecast moves in one direction: when the daily drift
    [trend_heart_rate*0.3 - trend_steps*0.0001 - trend_sleep*0.05] is not
    negative, the predicted risk and both confidence bounds never decrease
    from one day to the next; when it is not positive they never increase;
    and when it is 0 every day predicts the risk score itself, rounded. *)
Theorem forecast_direction (now : datetime) (rs : Q) (f : FeatureVector)
    (uid : string) (j k : nat) (tp1 tp2 : TrendPoint) :
  let trend := predicted_trend (prediction (_generate_prediction_response now rs f uid)) in
  (j <= k)%nat -> trend !! j = Some tp1 -> trend !! k = Some tp2 ->
  (0 <= trend_coefficient f ->
     predicted_risk tp1 <= predicted_risk tp2
     /\ confidence_lower tp1 <= confidence_lower tp2
     /\ confidence_upper tp1 <= confidence_upper tp2)
  /\ (trend_coefficient f <= 0 ->
     predicted_risk tp2 <= predicted_risk tp1
     /\ confidence_lower tp2 <= confidence_lower tp1
     /\ confidence_upper tp2 <= confidence_upper tp1)
  /\ (trend_coefficient f == 0 -> 0 <= rs <= 1 ->
      predicted_risk tp1 == py_round rs 3).
Proof.
  intros trend Hjk H1 H2. subst trend. rewrite predicted_trend_points in H1, H2.
  rewrite list_lookup_fmap in H1, H2.
  destruct ([1; 2; 3; 4; 5; 6; 7]%Z !! j) as [i1|] eqn:E1; [| discriminate H1].
  destruct ([1; 2; 3; 4; 5; 6; 7]%Z !! k) as [i2|] eqn:E2; [| discriminate H2].
  apply forecast_days in E1, E2. cbn in H1, H2.
  injection H1 as <-. injection H2 as <-.
  assert (Hi : (i1 <= i2)%Z) by lia.
  split; [| split].
  - intros Hc. apply forecast_point_order. apply forecast_risk_rising; assumption.
  - intros Hc. apply forecast_point_order. apply forecast_risk_falling; assumption.
  - intros Hc Hrs. cbn [forecast_point predicted_risk].
    apply py_round_comp; [| reflexivity].
    rewrite forecast_risk_coefficient, Hc. unfold clamp.
    assert (H : rs + 0 * inject_Z i1 * 0.01 == rs) by ring.
    rewrite H, (Q.min_r 1 rs), (Q.max_r 0 rs) by lra. reflexivity.
Qed.

Lemma forecast_direction_witness :
  exists tp1 tp2 : TrendPoint,
    predicted_trend (prediction (predict example_now example_rising "u1")) !! 0%nat
      = Some tp1
    /\ predicted_trend (prediction (predict example_now example_rising "u1")) !! 6%nat
       = Some tp2
    /\ 0 <= trend_coefficient example_rising
    /\ predicted_risk tp1 <= predicted_risk tp2.
Proof.
  exists (forecast_point example_now (calculate_risk_score example_rising)
            example_rising 1),
    (forecast_point example_now (calculate_risk_score example_rising)
       example_rising 7).
  assert (Hc : 0 <= trend_coefficient example_rising) by discriminate.
  split; [reflexivity |]. split; [reflexivity |]. split; [exact Hc |].
  refine (proj1 (proj1 (forecast_direction example_now
                          (calculate_risk_score example_rising) example_rising "u1"
                          0 6 _ _ _ eq_refl eq_refl) Hc)).
  lia.
Defined.

(** * The request handler *)

Lemma uniform_range (a b u : Q) :
  a <= b -> 0 <= u < 1 -> a <= uniform a b u <= b.
Proof. intros Hab [H0 H1]. unfold uniform. split; nra. Qed.

Lemma py_round_exact (k : Z) (ndigits : nat) :
  py_round (inject_Z k / inject_Z (10 ^ Z.of_nat ndigits)) ndigits
  == inject_Z k / inject_Z (10 ^ Z.of_nat ndigits).
Proof.
  unfold py_round. pose proof (scale_pos ndigits) as Hs.
  assert (H : inject_Z k / inject_Z (10 ^ Z.of_nat ndigits)
              * inject_Z (10 ^ Z.of_nat ndigits) == inject_Z k).
  { field. intros H0. rewrite H0 in Hs. discriminate Hs. }
  rewrite (round_half_even_comp _ _ H), round_half_even_Z. reflexivity.
Qed.

(** Rounding keeps a value between two bounds that rounding leaves alone. *)
Lemma py_round_within (lo hi x : Q) (ndigits : nat) :
  py_round lo ndigits == lo -> py_round hi ndigits == hi ->
  lo <= x <= hi -> lo <= py_round x ndigits <= hi.
Proof.
  intros Hlo Hhi [H1 H2]. split.
  - rewrite <- Hlo. apply py_round_mono. exact H1.
  - rewrite <- Hhi. apply py_round_mono. exact H2.
Qed.

Lemma round_int_between (klo khi : Z) (x : Q) :
  inject_Z klo <= x -> x <= inject_Z khi -> (klo <= py_round_int x <= khi)%Z.
Proof.
  intros Hlo Hhi. unfold py_round_int. split.
  - rewrite <- (round_half_even_Z klo). apply round_half_even_mono. exact Hlo.
  - rewrite <- (round_half_even_Z khi). apply round_half_even_mono. exact Hhi.
Qed.

(** ** Which body is written *)

Section HandlerFacts.
Variable pow_half : Q -> Q.
Variable db : option Database.

Lemma mock_events (rnd : nat -> Q) (now : datetime) (user_id : string) :
  exists r : Response,
    _generate_mock_prediction rnd now user_id = ([Write (JsonResponse r)], None).
Proof. eexists. reflexivity. Qed.

Lemma handle_predict_real (rnd : nat -> Q) (now : datetime)
    (c : ascii) (rest : string) (user_profile : UserProfile)
    (metrics : list MetricRecord) :
  enough_data db now (String c rest) user_profile metrics ->
  exists f : FeatureVector,
    compute_features pow_half metrics user_profile = Ok f
    /\ _handle_predict pow_half db rnd now (Returned (Some (String c rest)))
       = _set_cors_headers
         ++ [Write (JsonResponse (predict now f (String c rest)))].
Proof.
  intros (d & Hdb & Hfetch & Hlen).
  destruct (compute_features_fields pow_half metrics user_profile) as (f & Hf & _).
  exists f. split; [exact Hf |].
  unfold _handle_predict. rewrite Hdb, Hfetch.
  destruct (len metrics <? 10)%Z eqn:E; [apply Z.ltb_lt in E; lia |].
  rewrite Hf. reflexivity.
Qed.

Lemma handle_predict_mock (rnd : nat -> Q) (now : datetime)
    (c : ascii) (rest : string) :
  (forall user_profile metrics,
      ~ enough_data db now (String c rest) user_profile metrics) ->
  exists r : Response,
    _generate_mock_prediction rnd now (String c rest) = ([Write (JsonResponse r)], None)
    /\ _handle_predict pow_half db rnd now (Returned (Some (String c rest)))
       = _set_cors_headers ++ [Write (JsonResponse r); Write JsonNull].
Proof.
  intros Hnot. destruct (mock_events rnd now (String c rest)) as [r Hr].
  exists r. split; [exact Hr |].
  unfold _handle_predict.
  destruct db as [d |] eqn:Hdb; [| rewrite Hr; reflexivity].
  destruct (fetch d now (String c rest)) as [[user_profile metrics] | text] eqn:Hfetch;
    [| rewrite Hr; reflexivity].
  destruct (len metrics <? 10)%Z eqn:E; [rewrite Hr; reflexivity |].
  exfalso. apply (Hnot user_profile metrics). exists d.
  split; [reflexivity |]. split; [exact Hfetch |]. apply Z.ltb_ge in E. exact E.
Qed.
End HandlerFacts.

Lemma handle_predict_cases (pow_half : Q -> Q) (db : option Database)
    (rnd : nat -> Q) (now : datetime) (c : ascii) (rest : string) :
  (exists user_profile metrics,
      enough_data db now (String c rest) user_profile metrics)
  \/ (forall user_profile metrics,
        ~ enough_data db now (String c rest) user_profile metrics).
Proof.
  destruct db as [d |].
  - destruct (fetch d now (String c rest)) as [[user_profile metrics] | text] eqn:Hfetch.
    + destruct (Z.lt_ge_cases (len metrics) 10) as [Hlt | Hge].
      * right. intros p m (d' & Hd & Hf & Hlen). injection Hd as <-.
        rewrite Hfetch in Hf. injection Hf as <- <-. lia.
      * left. exists user_profile, metrics, d. auto.
    + right. intros p m (d' & Hd & Hf & _). injection Hd as <-.
      rewrite Hfetch in Hf. discriminate Hf.
  - right. intros p m (d' & Hd & _). discriminate Hd.
Qed.



(** X16.  In every other case with a user id -- no client, a failed fetch,
    fewer than ten records -- the mock prediction is written, and after it a
    second body, [null]: the mock prediction writes its response itself and
    returns nothing, and the handler writes what it got back. *)
Theorem mock_fallback_writes_null (pow_half : Q -> Q) (db : option Database)
    (rnd : nat -> Q) (now : datetime) (c : ascii) (rest : string) :
  let user_id := String c rest in
  db = None
  \/ (exists d text, db = Some d /\ fetch d now user_id = Raised text)
  \/ (exists d user_profile metrics,
        db = Some d /\ fetch d now user_id = Returned (user_profile, metrics)
        /\ (len metrics < 10)%Z) ->
  exists r : Response,
    _generate_mock_prediction rnd now user_id = ([Write (JsonResponse r)], None)
    /\ _handle_predict pow_half db rnd now (Returned (Some user_id))
       = _set_cors_headers ++ [Write (JsonResponse r); Write JsonNull].
Proof.
  intros user_id Hcase. subst user_id.
  apply handle_predict_mock. intros user_profile metrics (d & Hdb & Hfetch & Hlen).
  destruct Hcase as [Hnone | [(d' & text & Hd & Hf) | (d' & p & m & Hd & Hf & Hlt)]].
  - rewrite Hnone in Hdb. discriminate Hdb.
  - rewrite Hd in Hdb. injection Hdb as ->. rewrite Hf in Hfetch. discriminate Hfetch.
  - rewrite Hd in Hdb. injection Hdb as ->. rewrite Hf in Hfetch.
    injection Hfetch as -> ->. lia.
Qed.

Lemma mock_fallback_writes_null_witness :
  exists r : Response,
    _handle_predict (fun v => v) None example_rnd example_now
      (Returned (Some "u1"%string))
    = _set_cors_headers ++ [Write (JsonResponse r); Write JsonNull].
Proof.
  destruct (mock_fallback_writes_null (fun v => v) None example_rnd example_now
              "u"%char "1"%string (or_introl eq_refl)) as (r & _ & H).
  exists r. exact H.
Defined.

(** X17.  Every POST to the prediction path is answered with status 200 and
    the CORS headers, then one or two bodies and nothing else -- also when
    the request cannot be parsed or has no user id, which is told in the
    body only and without looking at the database.  Paths other than the
    two known ones get a 404 and no body. *)
Theorem post_answers (pow_half : Q -> Q) (db : option Database)
    (rnd : nat -> Q) (now : datetime) (path : string)
    (request : outcome (option string)) :
  (path = "/predictHealthRisk"%string ->
     (exists docs : list json_doc,
        (length docs = 1%nat \/ length docs = 2%nat)
        /\ do_POST pow_half db path rnd now request
           = _set_cors_headers ++ (Write <$> docs))
     /\ (forall text, request = Raised text ->
           do_POST pow_half db path rnd now request
           = _set_cors_headers ++ [Write (JsonFailure text)])
     /\ (request = Returned None \/ request = Returned (Some EmptyString) ->
           do_POST pow_half db path rnd now request
           = _set_cors_headers ++ [Write (JsonFailure "userId is required")]))
  /\ (path <> "/predictHealthRisk"%string -> path <> "/getHealthHistory"%string ->
      do_POST pow_half db path rnd now request = [SendError 404]).
Proof.
  split.
  - intros ->. unfold do_POST. cbn [String.eqb Ascii.eqb Bool.eqb].
    change (("/predictHealthRisk" =? "/predictHealthRisk")%string) with true.
    cbv iota. split; [| split].
    + destruct request as [[[| c rest] |] | text].
      * exists [JsonFailure "userId is required"]. split; [left |]; reflexivity.
      * destruct (handle_predict_cases pow_half db rnd now c rest) as [Hyes | Hno].
        -- destruct Hyes as (p & m & Henough).
           destruct (handle_predict_real pow_half db rnd now c rest _ _ Henough)
             as (f & _ & Hev).
           exists [JsonResponse (predict now f (String c rest))].
           split; [left; reflexivity | exact Hev].
        -- destruct (handle_predict_mock pow_half db rnd now c rest Hno)
             as (r & _ & Hev).
           exists [JsonResponse r; JsonNull]. split; [right; reflexivity | exact Hev].
      * exists [JsonFailure "userId is required"]. split; [left |]; reflexivity.
      * exists [JsonFailure text]. split; [left |]; reflexivity.
    + intros text ->. reflexivity.
    + intros [-> | ->]; reflexivity.
  - intros H1 H2. unfold do_POST.
    apply String.eqb_neq in H1, H2. rewrite H1, H2. reflexivity.
Qed.

Lemma post_answers_witness :
  do_POST (fun v => v) None "/predictHealthRisk" example_rnd example_now
    (Raised "Expecting value: line 1 column 1 (char 0)")
  = _set_cors_headers
    ++ [Write (JsonFailure "Expecting value: line 1 column 1 (char 0)")].
Proof.
  destruct (post_answers (fun v => v) None example_rnd example_now
              "/predictHealthRisk"
              (Raised "Expecting value: line 1 column 1 (char 0)")) as [H _].
  destruct (H eq_refl) as (_ & Hraised & _).
  apply Hraised. reflexivity.
Defined.

(** ** The mock data *)

(** X18.  The mock prediction needs no clamp: whatever the generator
    returns, its risk score is between 0.2 and 0.7, and on each of the seven
    days the predicted risk lies between the confidence bounds, which lie
    between 0.1 and 0.8. *)
Theorem mock_prediction_ranges (rnd : nat -> Q) (now : datetime) (user_id : string) :
  (forall k : nat, 0 <= rnd k < 1) ->
  exists r : Response,
    _generate_mock_prediction rnd now user_id = ([Write (JsonResponse r)], None)
    /\ 0.2 <= risk_score (prediction r) <= 0.7
    /\ length (predicted_trend (prediction r)) = 7%nat
    /\ (forall tp : TrendPoint,
          tp ∈ predicted_trend (prediction r) ->
          0.1 <= confidence_lower tp
          /\ confidence_lower tp <= predicted_risk tp
          /\ predicted_risk tp <= confidence_upper tp
          /\ confidence_upper tp <= 0.8).
Proof.
  intros Hrnd. eexists. split; [reflexivity |].
  cbn [prediction risk_score predicted_trend].
  pose proof (uniform_range 0.2 0.7 (rnd 0%nat) ltac:(discriminate) (Hrnd 0%nat))
    as Hbase.
  set (base_risk := uniform 0.2 0.7 (rnd 0%nat)) in *.
  split; [| split; [reflexivity |]].
  - apply py_round_within; [reflexivity | reflexivity | exact Hbase].
  - intros tp Htp. apply list_elem_of_fmap in Htp. destruct Htp as (i & -> & _).
    cbn [confidence_lower predicted_risk confidence_upper].
    pose proof (uniform_range (-0.05) 0.05 (rnd (Z.to_nat (i + 4)))
                  ltac:(discriminate) (Hrnd _)) as Hdelta.
    set (delta := uniform (-0.05) 0.05 (rnd (Z.to_nat (i + 4)))) in *.
    destruct (py_round_within 0.1 0.6 (base_risk - 0.1) 3) as [Hlo _];
      [reflexivity | reflexivity | lra |].
    destruct (py_round_within 0.3 0.8 (base_risk + 0.1) 3) as [_ Hhi];
      [reflexivity | reflexivity | lra |].
    split; [exact Hlo |].
    split; [apply py_round_mono; lra |].
    split; [apply py_round_mono; lra | exact Hhi].
Qed.

Lemma mock_prediction_ranges_witness :
  (forall k : nat, 0 <= example_rnd k < 1)
  /\ exists r : Response,
       _generate_mock_prediction example_rnd example_now "u1" = ([Write (JsonResponse r)], None)
       /\ 0.2 <= risk_score (prediction r) <= 0.7.
Proof.
  assert (Hrnd : forall k : nat, 0 <= example_rnd k < 1).
  { intros k. unfold example_rnd. split; [discriminate | reflexivity]. }
  split; [exact Hrnd |].
  destruct (mock_prediction_ranges example_rnd example_now "u1" Hrnd)
    as (r & Hr & Hscore & _).
  exists r. split; [exact Hr | exact Hscore].
Defined.

(** X19.  The history covers the thirty days before today, one entry per
    day in order, the last one being yesterday; whatever the generator
    returns, every heart rate is between 60 and 85, every step count between
    4000 and 10000, every sleep duration between 5.5 and 8.5 and every
    calorie count between 1800 and 2600. *)
Theorem history_days (rnd : nat -> Q) (now : datetime) :
  (forall k : nat, 0 <= rnd k < 1) ->
  exists history : list HistoryDay,
    _handle_history rnd now = _set_cors_headers ++ [Write (JsonHistory history)]
    /\ length history = 30%nat
    /\ (forall (i : nat) (day : HistoryDay),
          history !! i = Some day ->
          h_date day = (datetime_date now - 30 + Z.of_nat i)%Z
          /\ 60 <= h_heart_rate day <= 85
          /\ (4000 <= h_steps day <= 10000)%Z
          /\ 5.5 <= h_sleep_hours day <= 8.5
          /\ (1800 <= h_calories day <= 2600)%Z).
Proof.
  intros Hrnd. eexists. split; [reflexivity |].
  split; [reflexivity |].
  intros i day Hday. cbn [app] in Hday. rewrite list_lookup_fmap in Hday.
  destruct (range 30 !! i) as [k |] eqn:Hk; [| discriminate Hday].
  apply lookup_seqZ in Hk. destruct Hk as [-> Hi].
  cbn in Hday. injection Hday as <-.
  cbn [h_date h_heart_rate h_steps h_sleep_hours h_calories].
  split; [unfold datetime_date, add_days; cbn; lia |].
  pose proof (uniform_range 60 85 (rnd (Z.to_nat (4 * (0 + Z.of_nat i))))
                ltac:(discriminate) (Hrnd _)) as H1.
  pose proof (uniform_range 4000 10000 (rnd (Z.to_nat (4 * (0 + Z.of_nat i) + 1)))
                ltac:(discriminate) (Hrnd _)) as H2.
  pose proof (uniform_range 5.5 8.5 (rnd (Z.to_nat (4 * (0 + Z.of_nat i) + 2)))
                ltac:(discriminate) (Hrnd _)) as H3.
  pose proof (uniform_range 1800 2600 (rnd (Z.to_nat (4 * (0 + Z.of_nat i) + 3)))
                ltac:(discriminate) (Hrnd _)) as H4.
  split; [apply py_round_within; [reflexivity | reflexivity | exact H1] |].
  split; [apply round_int_between; [apply H2 | apply H2] |].
  split; [apply py_round_within; [reflexivity | reflexivity | exact H3] |].
  apply round_int_between; [apply H4 | apply H4].
Qed.

Lemma history_days_witness :
  exists history : list HistoryDay,
    _handle_history example_rnd example_now
    = _set_cors_headers ++ [Write (JsonHistory history)]
    /\ length history = 30%nat.
Proof.
  assert (Hrnd : forall k : nat, 0 <= example_rnd k < 1).
  { intros k. unfold example_rnd. split; [discriminate | reflexivity]. }
  destruct (history_days example_rnd example_now Hrnd) as (history & H & Hlen & _).
  exists history. split; [exact H | exact Hlen].
Defined.

(** * The server without a database *)

Lemma realistic_prediction_agrees (seeded : string -> Generator) (now : datetime)
    (user_id : string) :
  rr_prediction (_generate_realistic_prediction seeded now user_id)
  = prediction (predict now (realistic_features (seeded user_id)) user_id).
Proof. reflexivity. Qed.

Lemma realistic_ranges (g : Generator) :
  well_behaved g ->
  let f := realistic_features g in
  65 <= heart_rate_mean f <= 85
  /\ 4000 <= steps_mean f <= 9000
  /\ 5.5 <= sleep_hours_mean f <= 8
  /\ 1900 <= calories_mean f <= 2600
  /\ (25 <= age f <= 55)%Z
  /\ -0.5 <= trend_heart_rate f <= 0.5
  /\ -100 <= trend_steps f <= 100
  /\ -0.2 <= trend_sleep f <= 0.2.
Proof.
  intros (Hrnd & Hage & _). cbn.
  repeat split; try (apply uniform_range; [discriminate | apply Hrnd]); lia.
Qed.

Ltac band_bound H :=
  cbv zeta in H;
  repeat match type of H with _ \/ _ => destruct H as [H | H] end;
  destruct H as [-> H]; lra.

Lemma realistic_sum (g : Generator) :
  well_behaved g -> rule_table_sum (realistic_features g) <= 0.65.
Proof.
  intros Hg.
  destruct (realistic_ranges g Hg) as (R1 & R2 & R3 & R4 & R5 & R6 & R7 & R8).
  cbv zeta in *. unfold rule_table_sum.
  set (f := realistic_features g) in *.
  assert (B1 : first_match heart_rate_bands (heart_rate_mean f) <= 0.15).
  { pose proof (heart_rate_band (heart_rate_mean f)) as H. band_bound H. }
  assert (B2 : first_match steps_bands (steps_mean f) <= 0.20).
  { pose proof (steps_band (steps_mean f)) as H. band_bound H. }
  assert (B3 : first_match sleep_bands (sleep_hours_mean f) <= 0.15).
  { pose proof (sleep_band (sleep_hours_mean f)) as H. band_bound H. }
  assert (B4 : first_match calories_bands (calories_mean f) <= 0).
  { pose proof (calories_band (calories_mean f)) as H. band_bound H. }
  assert (B5 : first_match age_bands (age f) <= 0.05).
  { pose proof (age_band (age f)) as H. cbv zeta in H.
    destruct H as [[-> H] | [[-> H] | [[-> H] | [-> H]]]]; try lia; discriminate. }
  assert (B6 : first_match trend_heart_rate_bands (trend_heart_rate f) <= 0).
  { pose proof (trend_heart_rate_band (trend_heart_rate f)) as H. band_bound H. }
  assert (B7 : first_match trend_steps_bands (trend_steps f) <= 0.05).
  { pose proof (trend_steps_band (trend_steps f)) as H. band_bound H. }
  assert (B8 : first_match trend_sleep_bands (trend_sleep f) <= 0.05).
  { pose proof (trend_sleep_band (trend_sleep f)) as H. band_bound H. }
  lra.
Qed.

(** X20.  The server without a database answers every request that has a
    user id with one body, and its prediction is the one that
    [local_server.py] builds for the same features: the two copies of the
    response code agree.  Because of the ranges the features are drawn from,
    the score is never above 0.65 and the clamp never acts, the calories
    factor is always good, and the averages reported next to the prediction
    are within the ranges drawn from. *)
Theorem realistic_prediction (seeded : string -> Generator) (now : datetime)
    (c : ascii) (rest : string) :
  let user_id := String c rest in
  let f := realistic_features (seeded user_id) in
  let r := _generate_realistic_prediction seeded now user_id in
  well_behaved (seeded user_id) ->
  _handle_predict_realdata seeded now (Returned (Some user_id))
    = _set_cors_headers ++ [Write (JsonRealistic r)]
  /\ rr_prediction r = prediction (predict now f user_id)
  /\ calculate_risk_score f == rule_table_sum f
  /\ risk_score (rr_prediction r) <= 0.65
  /\ (forall factor, factor ∈ contributing_factors (rr_prediction r) ->
        feature factor = "calories"%string -> status factor = "good"%string)
  /\ 65 <= heart_rate_avg (metrics_analyzed (debug_info r)) <= 85
  /\ (4000 <= steps_avg (metrics_analyzed (debug_info r)) <= 9000)%Z
  /\ 5.5 <= sleep_avg (metrics_analyzed (debug_info r)) <= 8
  /\ (1900 <= calories_avg (metrics_analyzed (debug_info r)) <= 2600)%Z.
Proof.
  intros user_id f r Hg.
  pose proof (realistic_sum _ Hg) as Hsum. fold f in Hsum.
  pose proof (rule_table_sum_range f) as Hrange.
  destruct (realistic_ranges _ Hg) as (R1 & R2 & R3 & R4 & _). fold f in R1, R2, R3, R4.
  assert (Hscore : calculate_risk_score f == rule_table_sum f).
  { rewrite score_as_min, clamp_nonneg by lra. apply Q.min_r. lra. }
  split; [reflexivity |]. split; [reflexivity |]. split; [exact Hscore |].
  split.
  { change (risk_score (rr_prediction r)) with (py_round (calculate_risk_score f) 3).
    destruct (score_hundredths f) as (k & _ & Hk).
    rewrite Hk, py_round_hundredths, <- Hk, Hscore. exact Hsum. }
  split.
  { intros factor Hin Hcal.
    change (contributing_factors (rr_prediction r))
      with (sort_reverse impact (factor_table f)) in Hin.
    rewrite (sort_reverse_perm impact (factor_table f)) in Hin.
    unfold factor_table in Hin. rewrite !elem_of_cons, elem_of_nil in Hin.
    destruct Hin as [-> | [-> | [-> | [-> | []]]]]; try discriminate Hcal.
    cbn [status]. unfold calories_status.
    assert (E : (calories_mean f >? 2800) = false) by (apply Qgtb_le; lra).
    rewrite E. reflexivity. }
  change (heart_rate_avg (metrics_analyzed (debug_info r)))
    with (py_round (heart_rate_mean f) 1).
  change (steps_avg (metrics_analyzed (debug_info r)))
    with (py_round_int (steps_mean f)).
  change (sleep_avg (metrics_analyzed (debug_info r)))
    with (py_round (sleep_hours_mean f) 1).
  change (calories_avg (metrics_analyzed (debug_info r)))
    with (py_round_int (calories_mean f)).
  split; [apply py_round_within; [reflexivity | reflexivity | exact R1] |].
  split; [apply round_int_between; [apply R2 | apply R2] |].
  split; [apply py_round_within; [reflexivity | reflexivity | exact R3] |].
  apply round_int_between; [apply R4 | apply R4].
Qed.

Lemma realistic_prediction_witness :
  well_behaved example_generator
  /\ risk_score
       (rr_prediction
          (_generate_realistic_prediction (fun _ => example_generator) example_now "u1"))
     <= 0.65.
Proof.
  assert (Hg : well_behaved example_generator).
  { split; [| split; [cbn; lia | right; reflexivity]].
    intros k. cbn. split; [discriminate | reflexivity]. }
  split; [exact Hg |].
  destruct (realistic_prediction (fun _ => example_generator) example_now
              "u"%char "1"%string Hg) as (_ & _ & _ & H & _).
  exact H.
Defined.

(** X21.  The server without a database answers a POST to either known path
    with status 200, the CORS headers and exactly one body, which is never
    [null]: a failure when the request cannot be parsed or has no user id,
    the prediction otherwise, and a fixed message for the history whatever
    the request holds.  Any other path gets a 404 and no body. *)
Theorem post_answers_realdata (seeded : string -> Generator) (now : datetime)
    (path : string) (request : outcome (option string)) :
  (path = "/predictHealthRisk"%string ->
     (exists doc : json_doc,
        doc <> JsonNull
        /\ do_POST_realdata seeded path now request
           = _set_cors_headers ++ [Write doc])
     /\ (forall text, request = Raised text ->
           do_POST_realdata seeded path now request
           = _set_cors_headers ++ [Write (JsonFailure text)])
     /\ (request = Returned None \/ request = Returned (Some EmptyString) ->
           do_POST_realdata seeded path now request
           = _set_cors_headers ++ [Write (JsonFailure "userId is required")]))
  /\ (path = "/getHealthHistory"%string ->
      do_POST_realdata seeded path now request
      = _set_cors_headers
        ++ [Write (JsonMessage "History data is displayed from frontend cache")])
  /\ (path <> "/predictHealthRisk"%string -> path <> "/getHealthHistory"%string ->
      do_POST_realdata seeded path now request = [SendError 404]).
Proof.
  split; [| split].
  - intros ->. unfold do_POST_realdata.
    change (("/predictHealthRisk" =? "/predictHealthRisk")%string) with true.
    cbv iota. split; [| split].
    + destruct request as [[[| c rest] |] | text].
      * exists (JsonFailure "userId is required"). split; [discriminate | reflexivity].
      * exists (JsonRealistic (_generate_realistic_prediction seeded now (String c rest))).
        split; [discriminate | reflexivity].
      * exists (JsonFailure "userId is required"). split; [discriminate | reflexivity].
      * exists (JsonFailure text). split; [discriminate | reflexivity].
    + intros text ->. reflexivity.
    + intros [-> | ->]; reflexivity.
  - intros ->. reflexivity.
  - intros H1 H2. unfold do_POST_realdata.
    apply String.eqb_neq in H1, H2. rewrite H1, H2. reflexivity.
Qed.

Lemma post_answers_realdata_witness :
  do_POST_realdata (fun _ => example_generator) "/getHealthHistory" example_now
    (Raised "Expecting value")
  = _set_cors_headers
    ++ [Write (JsonMessage "History data is displayed from frontend cache")].
Proof.
  destruct (post_answers_realdata (fun _ => example_generator) example_now
              "/getHealthHistory" (Raised "Expecting value")) as (_ & H & _).
  exact (H eq_refl).
Defined.
